(** * Inventory turnover calculator: the calculation core and its input handlers

    A shallow embedding of [src/components/InventoryTurnoverCalculator.tsx]:
    the component state, [calculateResults], [handleInputChange],
    [handleMethodChange] and the two category messages of the results panel.

    JavaScript numbers are IEEE 754 binary64 values.  They are modelled by the
    Standard Library's executable specification of binary floating point
    ([SpecFloat], precision 53, maximal exponent 1024), so that rounding,
    overflow, signed zeros, infinities and NaN behave as they do in the
    browser. *)

From Stdlib Require Import ZArith List String Ascii Bool Lia DecimalString.
From Stdlib Require Import Floats.SpecFloat.
Import ListNotations.

Open Scope Z_scope.

(** ** JavaScript numbers *)

Module Number.

Definition prec : Z := 53.
Definition emax : Z := 1024.

Definition number : Type := spec_float.

Definition NaN : number := S754_nan.
Definition Infinity : number := S754_infinity false.

(** [a + b], [a / b] and unary minus. *)
Definition add (a b : number) : number := SFadd prec emax a b.
Definition div (a b : number) : number := SFdiv prec emax a b.
Definition neg (a : number) : number := SFopp a.
Definition abs (a : number) : number := SFabs a.

(** [a < b] and [a > b]; both are false as soon as one side is NaN. *)
Definition lt (a b : number) : bool := SFltb a b.
Definition gt (a b : number) : bool := SFltb b a.

(** The Number value of the decimal [m] x 10^[e]: the binary64 value nearest
    to it, ties to even, infinite from 2^1024 on.  This is how a numeric
    literal of the source (and the digits read by [parseFloat]) becomes a
    number.  An integer is rounded from its exact value; a proper fraction
    is the correctly rounded quotient of [m] by the power of ten. *)
Definition decimal (m e : Z) : number :=
  match e with
  | Zneg k =>
      match m with
      | Z0 => S754_zero false
      | Zpos p => div (S754_finite false p 0) (S754_finite false (Pos.pow 10 k) 0)
      | Zneg p => div (S754_finite true p 0) (S754_finite false (Pos.pow 10 k) 0)
      end
  | _ => binary_normalize prec emax (m * 10 ^ e) 0 false
  end.

Definition of_Z (z : Z) : number := decimal z 0.

(** ToBoolean on a number: [+0], [-0] and [NaN] are falsy. *)
Definition truthy (a : number) : bool :=
  match a with
  | S754_zero _ | S754_nan => false
  | _ => true
  end.

(** [a || b] on numbers. *)
Definition or_else (a b : number) : number := if truthy a then a else b.

Definition is_finite (a : number) : bool :=
  match a with
  | S754_zero _ | S754_finite _ _ _ => true
  | _ => false
  end.

Definition is_zero (a : number) : bool :=
  match a with
  | S754_zero _ => true
  | _ => false
  end.

(** A well-formed binary64 value. *)
Definition valid (a : number) : bool := valid_binary prec emax a.

End Number.

Import Number.

Declare Scope number_scope.
Delimit Scope number_scope with num.
Bind Scope number_scope with number.
Infix "+" := add : number_scope.
Infix "/" := div : number_scope.
Infix "<?" := lt : number_scope.
Infix ">?" := gt : number_scope.
Infix "||" := or_else : number_scope.

(** ** [parseFloat]

    Text is a [string] read as UTF-8.  [parseFloat] drops leading white space
    and line terminators, reads the longest prefix that is a decimal literal
    (sign, [Infinity], digits, fraction, exponent) and ignores what follows;
    with no such prefix the result is [NaN]. *)

Module Parse.

Definition digit_of (c : ascii) : option Z :=
  let n := Z.of_nat (nat_of_ascii c) in
  if (48 <=? n) && (n <=? 57) then Some (n - 48) else None.

(** Leading white space, by its UTF-8 bytes: TAB, LF, VT, FF, CR, SP,
    U+00A0, U+1680, U+2000..U+200A, U+2028, U+2029, U+202F, U+205F, U+3000
    and U+FEFF. *)
Fixpoint trim_start (s : string) : string :=
  match s with
  | String c s1 =>
      let n := nat_of_ascii c in
      if ((9 <=? n) && (n <=? 13))%nat || (n =? 32)%nat then trim_start s1
      else
        match s1 with
        | String c1 s2 =>
            let n1 := nat_of_ascii c1 in
            if (n =? 194)%nat && (n1 =? 160)%nat then trim_start s2
            else
              match s2 with
              | String c2 s3 =>
                  let n2 := nat_of_ascii c2 in
                  if ((n =? 225)%nat && (n1 =? 154)%nat && (n2 =? 128)%nat)
                     || ((n =? 226)%nat && (n1 =? 128)%nat
                         && (((128 <=? n2) && (n2 <=? 138))%nat
                             || (n2 =? 168)%nat || (n2 =? 169)%nat || (n2 =? 175)%nat))
                     || ((n =? 226)%nat && (n1 =? 129)%nat && (n2 =? 159)%nat)
                     || ((n =? 227)%nat && (n1 =? 128)%nat && (n2 =? 128)%nat)
                     || ((n =? 239)%nat && (n1 =? 187)%nat && (n2 =? 191)%nat)
                  then trim_start s3
                  else s
              | EmptyString => s
              end
        | EmptyString => s
        end
  | EmptyString => s
  end.

(** Reads a run of decimal digits: the value of the digits read after [acc],
    how many were read, and the rest of the text. *)
Fixpoint digits (s : string) (acc : Z) (count : Z) : Z * Z * string :=
  match s with
  | String c s1 =>
      match digit_of c with
      | Some d => digits s1 (10 * acc + d) (count + 1)
      | None => (acc, count, s)
      end
  | EmptyString => (acc, count, s)
  end.

(** The optional sign of a literal or of an exponent. *)
Definition sign (s : string) : bool * string :=
  match s with
  | String "-"%char s1 => (true, s1)
  | String "+"%char s1 => (false, s1)
  | _ => (false, s)
  end.

(** The exponent part [e], sign, digits, and the text after it; it is part
    of the literal only when at least one digit follows, otherwise the
    exponent is 0 and nothing is read. *)
Definition exponent (s : string) : Z * string :=
  match s with
  | String c s1 =>
      if (Ascii.eqb c "e" || Ascii.eqb c "E")%bool then
        let '(minus, s2) := sign s1 in
        let '(e, n, rest) := digits s2 0 0 in
        if 0 <? n then (if minus then - e else e, rest) else (0, s)
      else (0, s)
  | EmptyString => (0, s)
  end.

(** The unsigned literal at the head of [s], if any: its value and the text
    after it. *)
Definition literal (s : string) : option (number * string) :=
  if prefix "Infinity" s then
    Some (Infinity, substring 8 (String.length s - 8) s)
  else
    let '(i, ni, s1) := digits s 0 0 in
    match s1 with
    | String "."%char s2 =>
        let '(m, nf, s3) := digits s2 i 0 in
        if 0 <? ni + nf then
          let '(e, rest) := exponent s3 in Some (decimal m (e - nf), rest)
        else None
    | _ =>
        if 0 <? ni then
          let '(e, rest) := exponent s1 in Some (decimal i e, rest)
        else None
    end.

Definition parseFloat (s : string) : number :=
  let '(minus, s1) := sign (trim_start s) in
  match literal s1 with
  | Some (a, _) => if minus then neg a else a
  | None => NaN
  end.

End Parse.

Import Parse.

(** ** [Number.prototype.toFixed]

    The results panel prints the ratio with [toFixed(2)] and the DSI with
    [toFixed(0)].  A value that is not finite prints as its name; a finite
    one below 10^21 prints as the integer [n] nearest to [x * 10^f] (the
    larger one on a tie) with a decimal point before its last [f] digits.
    From 10^21 on the value prints as [ToString] prints it, in exponent
    notation with the fewest digits that read back as the same number.  The
    result is [None] only for a mantissa and exponent that no binary64 value
    has. *)

Module Fixed.

Definition digits_of (n : Z) : string :=
  DecimalString.NilZero.string_of_uint (N.to_uint (Z.to_N n)).

Fixpoint zeros (k : nat) : string :=
  match k with
  | O => EmptyString
  | S k' => String "0"%char (zeros k')
  end.

(** The decimal digits of [n] with a point before the last [f] of them. *)
Definition point (f : nat) (n : Z) : string :=
  let m := digits_of n in
  match f with
  | O => m
  | S _ =>
      let m := if (String.length m <=? f)%nat
               then (zeros (S f - String.length m) ++ m)%string else m in
      let k := String.length m in
      (substring 0 (k - f) m ++ "." ++ substring (k - f) f m)%string
  end.

(** The integer nearest to [m * 2^e * 10^f], the larger one on a tie. *)
Definition nearest (f : nat) (m : positive) (e : Z) : Z :=
  let scaled := Zpos m * 10 ^ Z.of_nat f in
  match e with
  | Zneg k => (2 * scaled + 2 ^ Zpos k) / 2 ^ (Zpos k + 1)
  | _ => scaled * 2 ^ e
  end.

(** [10^21 <= m * 2^e]. *)
Definition huge (m : positive) (e : Z) : bool :=
  match e with
  | Zneg k => 10 ^ 21 * 2 ^ Zpos k <=? Zpos m
  | _ => 10 ^ 21 <=? Zpos m * 2 ^ e
  end.

(** [s] x 10^[q] reads back as the number [m] x 2^[e]. *)
Definition reads_back (m : positive) (e : Z) (s q : Z) : bool :=
  match decimal s q with
  | S754_finite false m' e' => Pos.eqb m' m && Z.eqb e' e
  | _ => false
  end.

(** The digits [s] of the shortest decimal [s] x 10^([n] - [k]) that reads
    back as the integer [x] = [m] x 2^[e] of [n] digits, trying [k] = 1, 2,
    ... digits; of the two [k]-digit candidates around [x] the nearer one is
    taken when both read back. *)
Fixpoint shortest (fuel : nat) (k : Z) (m : positive) (e : Z) (x n : Z)
  : option (Z * Z) :=
  match fuel with
  | O => None
  | S fuel' =>
      let q := n - k in
      let lo := x / 10 ^ q in
      let hi := lo + 1 in
      match reads_back m e lo q, reads_back m e hi q with
      | true, true =>
          if x - lo * 10 ^ q <=? hi * 10 ^ q - x then Some (lo, k)
          else Some (hi, k)
      | true, false => Some (lo, k)
      | false, true => Some (hi, k)
      | false, false => shortest fuel' (k + 1) m e x n
      end
  end.

(** [ToString] of the number [m] x 2^[e], which is at least 10^21: the first
    digit, a point and the other digits if there are any, [e+] and the
    decimal exponent. *)
Definition exponent_notation (m : positive) (e : Z) : option string :=
  match e with
  | Zneg _ => None
  | _ =>
      let x := Zpos m * 2 ^ e in
      let n := Z.of_nat (String.length (digits_of x)) in
      match shortest 17 1 m e x n with
      | None => None
      | Some (s, k) =>
          let '(ds, exp) :=
            if s =? 10 ^ k then ("1"%string, n) else (digits_of s, n - 1) in
          match ds with
          | String d EmptyString =>
              Some (String d "e+" ++ digits_of exp)%string
          | String d rest =>
              Some (String d ("." ++ rest) ++ "e+" ++ digits_of exp)%string
          | EmptyString => None
          end
      end
  end.

Definition toFixed (f : nat) (x : number) : option string :=
  match x with
  | S754_nan => Some "NaN"%string
  | S754_infinity s => Some (if s then "-Infinity" else "Infinity")%string
  | S754_zero _ => Some (point f 0)
  | S754_finite s m e =>
      if huge m e then
        option_map (fun t => (if s then "-" else "") ++ t)%string
          (exponent_notation m e)
      else Some ((if s then "-" else "") ++ point f (nearest f m e))%string
  end.

End Fixed.

Import Fixed.

(** ** The calculator component *)

Module Calculator.

Local Open Scope string_scope.

(** [type CalculationMethod = 'cogs' | 'average'] *)
Inductive CalculationMethod : Type := cogs | average.

(** [interface CalculatorValues] *)
Record CalculatorValues : Type := {
  costOfGoodsSold : number;
  beginningInventory : number;
  endingInventory : number;
  averageInventory : number
}.

(** An entry [{ name, value }] of a chart dataset. *)
Record ChartEntry : Type := { name : string; value : number }.

(** The six [useState] cells of the component. *)
Record State : Type := {
  method : CalculationMethod;
  values : CalculatorValues;
  turnoverRatio : number;
  daysToSell : number;
  benchmarkData : list ChartEntry;
  comparisonData : list ChartEntry
}.

Definition initialState : State := {|
  method := cogs;
  values := {| costOfGoodsSold := of_Z 1000000;
               beginningInventory := of_Z 250000;
               endingInventory := of_Z 150000;
               averageInventory := of_Z 200000 |};
  turnoverRatio := of_Z 0;
  daysToSell := of_Z 0;
  benchmarkData := [];
  comparisonData := []
|}.

(** The state setters. *)
Definition setMethod (m : CalculationMethod) (s : State) : State :=
  {| method := m; values := values s;
     turnoverRatio := turnoverRatio s; daysToSell := daysToSell s;
     benchmarkData := benchmarkData s; comparisonData := comparisonData s |}.

Definition setValues (v : CalculatorValues) (s : State) : State :=
  {| method := method s; values := v;
     turnoverRatio := turnoverRatio s; daysToSell := daysToSell s;
     benchmarkData := benchmarkData s; comparisonData := comparisonData s |}.

Definition setTurnoverRatio (r : number) (s : State) : State :=
  {| method := method s; values := values s;
     turnoverRatio := r; daysToSell := daysToSell s;
     benchmarkData := benchmarkData s; comparisonData := comparisonData s |}.

Definition setDaysToSell (d : number) (s : State) : State :=
  {| method := method s; values := values s;
     turnoverRatio := turnoverRatio s; daysToSell := d;
     benchmarkData := benchmarkData s; comparisonData := comparisonData s |}.

Definition setBenchmarkData (l : list ChartEntry) (s : State) : State :=
  {| method := method s; values := values s;
     turnoverRatio := turnoverRatio s; daysToSell := daysToSell s;
     benchmarkData := l; comparisonData := comparisonData s |}.

Definition setComparisonData (l : list ChartEntry) (s : State) : State :=
  {| method := method s; values := values s;
     turnoverRatio := turnoverRatio s; daysToSell := daysToSell s;
     benchmarkData := benchmarkData s; comparisonData := l |}.

(** [calculateResults]: reads [method] and [values], writes the four
    derived cells. *)
Definition calculateResults (s : State) : State :=
  let ratio :=
    match method s with
    | cogs =>
        let inventoryValue :=
          (beginningInventory (values s) + endingInventory (values s)) / of_Z 2 in
        costOfGoodsSold (values s) / inventoryValue
    | average =>
        let inventoryValue := averageInventory (values s) in
        costOfGoodsSold (values s) / inventoryValue
    end%num in
  let s := setTurnoverRatio ratio s in
  let s := setDaysToSell (of_Z 365 / ratio)%num s in
  let s := setBenchmarkData
             [ {| name := "Apparel"; value := decimal 45 (-1) |};
               {| name := "Electronics"; value := decimal 52 (-1) |};
               {| name := "Grocery"; value := decimal 128 (-1) |};
               {| name := "Furniture"; value := decimal 23 (-1) |};
               {| name := "General Retail"; value := decimal 38 (-1) |} ] s in
  setComparisonData
    [ {| name := "Your Business"; value := ratio |};
      {| name := "Industry Avg."; value := decimal 38 (-1) |} ] s.

(** [{ ...values, [name]: v }].  The four names are those of the rendered
    inputs; a property under any other name would be one that nothing
    reads, so that the four fields are then as they were. *)
Definition assign (vs : CalculatorValues) (name : string) (v : number)
  : CalculatorValues :=
  if name =? "costOfGoodsSold" then
    {| costOfGoodsSold := v;
       beginningInventory := beginningInventory vs;
       endingInventory := endingInventory vs;
       averageInventory := averageInventory vs |}
  else if name =? "beginningInventory" then
    {| costOfGoodsSold := costOfGoodsSold vs;
       beginningInventory := v;
       endingInventory := endingInventory vs;
       averageInventory := averageInventory vs |}
  else if name =? "endingInventory" then
    {| costOfGoodsSold := costOfGoodsSold vs;
       beginningInventory := beginningInventory vs;
       endingInventory := v;
       averageInventory := averageInventory vs |}
  else if name =? "averageInventory" then
    {| costOfGoodsSold := costOfGoodsSold vs;
       beginningInventory := beginningInventory vs;
       endingInventory := endingInventory vs;
       averageInventory := v |}
  else vs.

(** [values[name]] for the four fields. *)
Definition field (name : string) (vs : CalculatorValues) : option number :=
  if name =? "costOfGoodsSold" then Some (costOfGoodsSold vs)
  else if name =? "beginningInventory" then Some (beginningInventory vs)
  else if name =? "endingInventory" then Some (endingInventory vs)
  else if name =? "averageInventory" then Some (averageInventory vs)
  else None.

(** [handleInputChange], on the [name] and [value] of the event's target. *)
Definition handleInputChange (name value : string) (s : State) : State :=
  setValues (assign (values s) name (parseFloat value || of_Z 0)%num) s.

(** [value as CalculationMethod].  The tabs emit [cogs] or [average]; the
    cast checks nothing, and [calculateResults] only asks whether the method
    is [cogs], so that any other string acts as [average]. *)
Definition asCalculationMethod (value : string) : CalculationMethod :=
  if value =? "cogs" then cogs else average.

Definition handleMethodChange (value : string) (s : State) : State :=
  setMethod (asCalculationMethod value) s.

(** The events of the form, and what one event does: its handler runs, and
    since [values] or [method] changed the effect
    [useEffect(() => { calculateResults(); }, [values, method])] runs after
    it.  Setting the method to what it already is changes nothing, and the
    effect does not run. *)
Inductive Event : Type :=
| InputChange (name value : string)
| MethodChange (value : string).

Definition method_eqb (a b : CalculationMethod) : bool :=
  match a, b with
  | cogs, cogs | average, average => true
  | _, _ => false
  end.

Definition dispatch (e : Event) (s : State) : State :=
  match e with
  | InputChange name value => calculateResults (handleInputChange name value s)
  | MethodChange value =>
      if method_eqb (asCalculationMethod value) (method s) then s
      else calculateResults (handleMethodChange value s)
  end.

(** The component after mounting: the effect has run once. *)
Definition mounted : State := calculateResults initialState.

Definition run (es : list Event) : State :=
  fold_left (fun s e => dispatch e s) es mounted.

(** The two category lines of the results panel. *)
Definition ratioMessage (turnoverRatio : number) : string :=
  if (turnoverRatio <? of_Z 2)%num then
    "Low turnover - consider reducing inventory levels"
  else if (turnoverRatio >? of_Z 6)%num then
    "High turnover - efficient inventory management"
  else
    "Average turnover - within normal retail range".

Definition dsiMessage (daysToSell : number) : string :=
  if (daysToSell >? of_Z 180)%num then
    "Your inventory takes a long time to sell"
  else if (daysToSell <? of_Z 60)%num then
    "Your inventory sells very quickly"
  else
    "Your inventory sells at an average pace".

(** What [handleInputChange] can store: any number but [NaN] and [-0]. *)
Definition storable (v : number) : bool :=
  match v with
  | S754_nan | S754_zero true => false
  | _ => true
  end.

Definition all_storable (vs : CalculatorValues) : bool :=
  storable (costOfGoodsSold vs) && storable (beginningInventory vs)
  && storable (endingInventory vs) && storable (averageInventory vs).

(** The two figures of the results panel as printed. *)
Definition ratioText (s : State) : option string := toFixed 2 (turnoverRatio s).
Definition dsiText (s : State) : option string := toFixed 0 (daysToSell s).

End Calculator.

Import Calculator.

(** ** The specification's vocabulary *)

Module Spec.

(** The specification's input modes are the two calculation methods. *)
Definition COGS_AVERAGE : CalculationMethod := cogs.
Definition DIRECT_AVERAGE : CalculationMethod := average.

(** The effective average inventory, as the specification words it. *)
Definition effectiveAverageInventory
  (mode : CalculationMethod) (inputs : CalculatorValues) : number :=
  match mode with
  | cogs => (beginningInventory inputs + endingInventory inputs) / of_Z 2
  | average => averageInventory inputs
  end%num.

(** [compute(mode, inputs)]: the derived cells after [calculateResults] has
    run on a component holding [mode] and [inputs]; [prev] is whatever the
    derived cells held before. *)
Definition compute (mode : CalculationMethod) (inputs : CalculatorValues)
  (prev : State) : State :=
  calculateResults (setValues inputs (setMethod mode prev)).

(** Numeric text: the whole text, leading white space aside, is one decimal
    literal. *)
Definition numeric (text : string) : bool :=
  let '(_, s1) := sign (trim_start text) in
  match literal s1 with
  | Some (_, rest) => match rest with EmptyString => true | _ => false end
  | None => false
  end.

End Spec.

Import Spec.

(** ** The specification's concrete scenarios *)

Module Scenario.

Local Open Scope string_scope.

Definition inputs (c b e a : number) : CalculatorValues :=
  {| costOfGoodsSold := c; beginningInventory := b;
     endingInventory := e; averageInventory := a |}.

(** Scenario 1: COGS mode, COGS 1,000,000, beginning 250,000, ending
    150,000; the average-inventory field [a] is whatever it is. *)
Definition scenario1 (a : number) (prev : State) : State :=
  compute COGS_AVERAGE
    (inputs (of_Z 1000000) (of_Z 250000) (of_Z 150000) a) prev.

(** Scenario 2: direct-average mode, COGS 1,000,000, average inventory
    200,000; the two other inventory fields are whatever they are. *)
Definition scenario2 (b e : number) (prev : State) : State :=
  compute DIRECT_AVERAGE
    (inputs (of_Z 1000000) b e (of_Z 200000)) prev.

(** Scenario 3: COGS 500,000, beginning 0, ending 0, in COGS mode. *)
Definition inputs3 : CalculatorValues :=
  inputs (of_Z 500000) (of_Z 0) (of_Z 0) (of_Z 200000).
Definition scenario3 : State := compute COGS_AVERAGE inputs3 initialState.

(** The same figure [x] in the three inventory fields. *)
Definition same_inventory (c x : number) : CalculatorValues := inputs c x x x.

(** 1e308, a finite value whose double is not. *)
Definition big : number := decimal 1 308.

(** The user types [-5] into the cost-of-goods-sold field of the freshly
    mounted component. *)
Definition negative_cogs : State :=
  dispatch (InputChange "costOfGoodsSold" "-5") mounted.

End Scenario.

Import Scenario.

(** ** The number inputs

    Each of the four fields is rendered as an input of type [number] whose
    [onChange] is [handleInputChange].  The value of such an input is
    sanitized by the browser before any event sees it: it is the text as
    typed when that text is a valid floating-point number (an optional minus
    sign; digits, a fraction of a point and digits, or both; an optional
    exponent of [e] or [E], an optional sign and digits), and the empty
    string otherwise. *)

Module NumberInput.

(** The text after a point, if the text starts with one. *)
Definition after_point (s : string) : option string :=
  match s with
  | String c rest => if Ascii.eqb c "." then Some rest else None
  | EmptyString => None
  end.

(** Nothing, or an exponent that ends the text. *)
Definition exponent_part (s : string) : bool :=
  match s with
  | EmptyString => true
  | String c s1 =>
      (Ascii.eqb c "e" || Ascii.eqb c "E")%bool
      && (let '(_, s2) := sign s1 in
          let '(_, n, rest) := digits s2 0 0 in
          (0 <? n) && match rest with EmptyString => true | _ => false end)
  end.

Definition valid_floating_point_number (s : string) : bool :=
  let body := match s with String "-"%char r => r | _ => s end in
  let '(_, ni, s1) := digits body 0 0 in
  match s1 with
  | String "."%char s2 =>
      let '(_, nf, s3) := digits s2 0 0 in
      (0 <? nf) && exponent_part s3
  | _ => (0 <? ni) && exponent_part s1
  end.

(** The value of the input element when the user has typed [typed]. *)
Definition sanitize (typed : string) : string :=
  if valid_floating_point_number typed then typed else EmptyString.

(** The change event of the field [name] when the user has typed [typed]:
    [e.target.name] is the field's name and [e.target.value] its value. *)
Definition change (name typed : string) : Event :=
  InputChange name (sanitize typed).

End NumberInput.

Import NumberInput.

(** ** The PDF export and the e-mail notice

    [generatePDF] and [sendEmail] act only through their collaborators: the
    toast hook, [html2canvas], the canvas, [jsPDF], the clock and the
    console.  Each call on a collaborator is recorded in a log, in order,
    with whether it returned or threw; what a call answers is up to the
    world the code runs in. *)

Module Report.

Local Open Scope string_scope.

(** [a * b] *)
Definition mul (a b : number) : number := SFmul prec emax a b.

(** What [resultRef.current] holds once the results panel is rendered. *)
Inductive Element : Type := resultsPanel.

(** The canvas [html2canvas] resolves to; the code reads its two dimensions. *)
Record Canvas : Type := { width : number; height : number }.

(** A thrown value. *)
Definition Error : Type := string.

(** The calls, indexed by what they return. *)
Inductive Call : Type -> Type :=
| toast (variant : option string) (title description : string) : Call unit
| html2canvas (element : Element) (scale : number) (logging useCORS : bool)
    (backgroundColor : string) : Call Canvas
| toDataURL (canvas : Canvas) (type : string) : Call string
| newJsPDF (orientation units format : string) : Call unit
| setFillColor (r g b : number) : Call unit
| rect (x y w h : number) (style : string) : Call unit
| setTextColor (r g b : number) : Call unit
| setFont (fontName fontStyle : string) : Call unit
| setFontSize (size : number) : Call unit
| text (content : string) (x y : number) (align : string) : Call unit
| toLocaleDateString (locales : string) : Call string
| addImage (imageData format : string) (x y w h : number) : Call unit
| save (filename : string) : Call unit
| consoleError (message : string) (error : Error) : Call unit.

Inductive Outcome (T : Type) : Type :=
| Returns (v : T)
| Throws (error : Error).

Arguments Returns {T} v.
Arguments Throws {T} error.

(** The world answers the [n]-th call of a run. *)
Definition World : Type := nat -> forall T : Type, Call T -> Outcome T.

(** A log entry: the call and whether it returned. *)
Inductive Entry : Type :=
| entry {T : Type} (call : Call T) (returned : bool).

Definition Log : Type := list Entry.

(** Code that calls collaborators and may throw. *)
Definition M (A : Type) : Type := World -> Log -> Log * Outcome A.

Definition ret {A : Type} (a : A) : M A := fun _ log => (log, Returns a).

Definition bind {A B : Type} (m : M A) (k : A -> M B) : M B :=
  fun world log =>
    match m world log with
    | (log', Returns a) => k a world log'
    | (log', Throws error) => (log', Throws error)
    end.

Definition call {T : Type} (c : Call T) : M T :=
  fun world log =>
    match world (List.length log) T c with
    | Returns v => ((log ++ [entry c true])%list, Returns v)
    | Throws error => ((log ++ [entry c false])%list, Throws error)
    end.

(** [try { body } catch (error) { handler }] *)
Definition try_catch {A : Type} (body : M A) (handler : Error -> M A) : M A :=
  fun world log =>
    match body world log with
    | (log', Returns a) => (log', Returns a)
    | (log', Throws error) => handler error world log'
    end.

Local Notation "x <- m ;; k" := (bind m (fun x => k))
  (at level 61, m at next level, right associativity).
Local Notation "m ;;; k" := (bind m (fun _ => k))
  (at level 61, right associativity).

(** [generatePDF], given what [resultRef.current] holds. *)
Definition generatePDF (current : option Element) : M unit :=
  match current with
  | None => ret tt
  | Some element =>
      try_catch
        (call (toast None "Preparing your PDF..."
                 "Please wait while we generate your report.") ;;;
         canvas <- call (html2canvas element (of_Z 2) false true "#ffffff") ;;
         imgData <- call (toDataURL canvas "image/png") ;;
         call (newJsPDF "portrait" "mm" "a4") ;;;
         call (setFillColor (of_Z 36) (of_Z 94) (of_Z 79)) ;;;
         call (rect (of_Z 0) (of_Z 0) (of_Z 210) (of_Z 25) "F") ;;;
         call (setTextColor (of_Z 255) (of_Z 255) (of_Z 255)) ;;;
         call (setFont "helvetica" "bold") ;;;
         call (setFontSize (of_Z 16)) ;;;
         call (text "Retail Insights Visualizer" (of_Z 105) (of_Z 15) "center") ;;;
         call (setTextColor (of_Z 36) (of_Z 94) (of_Z 79)) ;;;
         call (setFontSize (of_Z 20)) ;;;
         call (text "Inventory Turnover Analysis" (of_Z 105) (of_Z 40) "center") ;;;
         call (setFontSize (of_Z 10)) ;;;
         call (setTextColor (of_Z 100) (of_Z 100) (of_Z 100)) ;;;
         date <- call (toLocaleDateString "en-IN") ;;
         call (text ("Generated on: " ++ date) (of_Z 105) (of_Z 50) "center") ;;;
         let imgWidth := of_Z 180 in
         let imgHeight := div (mul (height canvas) imgWidth) (width canvas) in
         call (addImage imgData "PNG" (of_Z 15) (of_Z 60) imgWidth imgHeight) ;;;
         call (setFillColor (of_Z 36) (of_Z 94) (of_Z 79)) ;;;
         call (rect (of_Z 0) (of_Z 282) (of_Z 210) (of_Z 15) "F") ;;;
         call (setTextColor (of_Z 255) (of_Z 255) (of_Z 255)) ;;;
         call (setFontSize (of_Z 10)) ;;;
         call (text "© 2023 Retail Insights Visualizer | www.retailinsights.com"
                 (of_Z 105) (of_Z 290) "center") ;;;
         call (save "inventory-turnover-analysis.pdf") ;;;
         call (toast None "PDF Downloaded Successfully"
                 "Your inventory turnover analysis has been downloaded."))
        (fun error =>
           call (consoleError "Error generating PDF:" error) ;;;
           call (toast (Some "destructive") "Download Failed"
                   "There was an error generating your PDF. Please try again."))
  end.

(** [sendEmail] *)
Definition sendEmail : M unit :=
  call (toast None "Email Feature"
          "This would integrate with your email service to send the report. For now, please use the download option.").

(** A run from an empty log. *)
Definition run_export {A : Type} (m : M A) (world : World) : Log * Outcome A :=
  m world [].

(** Observers of a log. *)
Definition is_toast (e : Entry) : bool :=
  match e with entry (toast _ _ _) _ => true | _ => false end.

Definition is_success_toast (e : Entry) : bool :=
  match e with
  | entry (toast None title _) true => title =? "PDF Downloaded Successfully"
  | _ => false
  end.

Definition is_failure_toast (e : Entry) : bool :=
  match e with
  | entry (toast (Some variant) title _) true =>
      (variant =? "destructive") && (title =? "Download Failed")
  | _ => false
  end.

Definition is_saved (e : Entry) : bool :=
  match e with
  | entry (save filename) true => filename =? "inventory-turnover-analysis.pdf"
  | _ => false
  end.


Definition is_console_error (e : Entry) : bool :=
  match e with entry (consoleError _ _) _ => true | _ => false end.


Definition count (p : Entry -> bool) (log : Log) : nat :=
  List.length (filter p log).





Definition returned (e : Entry) : bool :=
  match e with entry _ r => r end.



(** The toast and the console never throw. *)
Definition quiet (world : World) : Prop :=
  (forall n variant title description,
      world n unit (toast variant title description) = Returns tt)
  /\ (forall n message error,
        world n unit (consoleError message error) = Returns tt).

(** A world in which every call returns: the canvas [c], the data URL
    [data] and the date [date]. *)
Definition calm (c : Canvas) (data date : string) : World :=
  fun _ T call =>
    match call in Call T return Outcome T with
    | html2canvas _ _ _ _ _ => Returns c
    | toDataURL _ _ => Returns data
    | toLocaleDateString _ => Returns date
    | toast _ _ _ | newJsPDF _ _ _ | setFillColor _ _ _ | rect _ _ _ _ _
    | setTextColor _ _ _ | setFont _ _ | setFontSize _ | text _ _ _ _
    | addImage _ _ _ _ _ _ | save _ | consoleError _ _ => Returns tt
    end.

(** The same world, except that the [k]-th call throws [error] unless it is
    a toast or a console call. *)
Definition failing_at (k : nat) (error : Error) (c : Canvas)
  (data date : string) : World :=
  fun n T call =>
    if (n =? k)%nat then
      match call in Call T return Outcome T with
      | toast _ _ _ => Returns tt
      | consoleError _ _ => Returns tt
      | _ => Throws error
      end
    else calm c data date n T call.

End Report.

Import Report.

(** ** What a session leaves behind *)

Module Session.

Local Open Scope string_scope.

(** The text of the last edit of the field [name], if it was edited. *)
Definition last_edit (name : string) (es : list Event) : option string :=
  fold_left
    (fun found e =>
       match e with
       | InputChange n value => if n =? name then Some value else found
       | MethodChange _ => found
       end)
    es None.

(** The last tab selected, if one was. *)
Definition last_tab (es : list Event) : option string :=
  fold_left
    (fun found e =>
       match e with
       | InputChange _ _ => found
       | MethodChange tab => Some tab
       end)
    es None.

(** What a field holds after its last edit, or [initial] if it was never
    edited. *)
Definition held (edit : option string) (initial : number) : number :=
  match edit with
  | Some value => (parseFloat value || of_Z 0)%num
  | None => initial
  end.

Definition final_values (es : list Event) : CalculatorValues :=
  {| costOfGoodsSold :=
       held (last_edit "costOfGoodsSold" es) (costOfGoodsSold (values initialState));
     beginningInventory :=
       held (last_edit "beginningInventory" es) (beginningInventory (values initialState));
     endingInventory :=
       held (last_edit "endingInventory" es) (endingInventory (values initialState));
     averageInventory :=
       held (last_edit "averageInventory" es) (averageInventory (values initialState)) |}.

Definition final_method (es : list Event) : CalculationMethod :=
  match last_tab es with
  | Some tab => asCalculationMethod tab
  | None => method initialState
  end.

(** The value of the tab that shows the method [m]. *)
Definition tab_of (m : CalculationMethod) : string :=
  match m with
  | cogs => "cogs"
  | average => "average"
  end.

(** The four derived cells, which are what the panel and the charts show. *)
Definition shown (s : State)
  : number * number * list ChartEntry * list ChartEntry :=
  (turnoverRatio s, daysToSell s, benchmarkData s, comparisonData s).

End Session.

Import Session.

(** ** Kinds of numbers *)

Module Kind.

Definition is_nan (a : number) : bool :=
  match a with
  | S754_nan => true
  | _ => false
  end.

Definition is_infinite (a : number) : bool :=
  match a with
  | S754_infinity _ => true
  | _ => false
  end.

(** [a] is [+0], a positive number or [+Infinity]. *)
Definition non_negative (a : number) : bool :=
  match a with
  | S754_zero false | S754_infinity false | S754_finite false _ _ => true
  | _ => false
  end.

(** [a] carries the sign [s]; [NaN] carries none. *)
Definition signed (s : bool) (a : number) : Prop :=
  match a with
  | S754_zero s' | S754_infinity s' | S754_finite s' _ _ => s' = s
  | S754_nan => False
  end.

(** An infinity and its opposite. *)
Definition opposite_infinities (a b : number) : bool :=
  match a, b with
  | S754_infinity sa, S754_infinity sb => xorb sa sb
  | _, _ => false
  end.

End Kind.

Import Kind.

(** * Properties *)

(** ** The model on known values *)

(** The doubles behind the decimal constants of the source. *)
Example decimal_3_8 : decimal 38 (-1) = S754_finite false 0x1e666666666666 (-51).
Proof. vm_compute. reflexivity. Qed.

Example decimal_12_8 : decimal 128 (-1) = S754_finite false 0x1999999999999a (-49).
Proof. vm_compute. reflexivity. Qed.

Example decimal_integers :
  of_Z 365 = S754_finite false 0x16d00000000000 (-44)
  /\ of_Z 2 = S754_finite false 0x10000000000000 (-51)
  /\ of_Z 0 = S754_zero false.
Proof. repeat split; vm_compute; reflexivity. Qed.

(** Ties go to the even mantissa, and values from 2^1024 on are infinite. *)
Example decimal_rounding :
  of_Z 9007199254740993 = of_Z 9007199254740992
  /\ of_Z 9007199254740995 = of_Z 9007199254740996
  /\ decimal 17976931348623157 292 = S754_finite false 0x1fffffffffffff 971
  /\ decimal 18 307 = Infinity
  /\ decimal 5 (-324) = S754_finite false 1 (-1074)
  /\ decimal 2 (-324) = of_Z 0.
Proof. repeat split; vm_compute; reflexivity. Qed.

Example parseFloat_literals :
  parseFloat "3.8" = decimal 38 (-1)
  /\ parseFloat "  250000" = of_Z 250000
  /\ parseFloat ".5" = decimal 5 (-1)
  /\ parseFloat "5." = of_Z 5
  /\ parseFloat "+1.5e3" = of_Z 1500
  /\ parseFloat "1e-2" = decimal 1 (-2)
  /\ parseFloat "-0" = neg (of_Z 0)
  /\ parseFloat "Infinity" = Infinity
  /\ parseFloat "-Infinity" = neg Infinity.
Proof. repeat split; vm_compute; reflexivity. Qed.

Example parseFloat_prefixes :
  parseFloat "12abc" = of_Z 12
  /\ parseFloat "1e" = of_Z 1
  /\ parseFloat "1.5.7" = decimal 15 (-1)
  /\ parseFloat "0x10" = of_Z 0
  /\ parseFloat "7 apples" = of_Z 7.
Proof. repeat split; vm_compute; reflexivity. Qed.

Example parseFloat_NaN :
  parseFloat "" = NaN
  /\ parseFloat "   " = NaN
  /\ parseFloat "abc" = NaN
  /\ parseFloat "." = NaN
  /\ parseFloat "-" = NaN
  /\ parseFloat "e5" = NaN
  /\ parseFloat "- 5" = NaN
  /\ parseFloat "Infinit" = NaN.
Proof. repeat split; vm_compute; reflexivity. Qed.

Example toFixed_values :
  toFixed 2 (of_Z 5) = Some "5.00"%string
  /\ toFixed 0 (of_Z 73) = Some "73"%string
  /\ toFixed 2 (decimal 1005 (-3)) = Some "1.00"%string
  /\ toFixed 2 (decimal 123456 (-2)) = Some "1234.56"%string
  /\ toFixed 0 (decimal 25 (-1)) = Some "3"%string
  /\ toFixed 2 (decimal (-1) (-3)) = Some "-0.00"%string
  /\ toFixed 2 (neg (of_Z 0)) = Some "0.00"%string
  /\ toFixed 2 NaN = Some "NaN"%string
  /\ toFixed 2 (neg Infinity) = Some "-Infinity"%string
  /\ toFixed 2 (decimal 1 21) = Some "1e+21"%string.
Proof. repeat split; vm_compute; reflexivity. Qed.

(** From 10^21 on: exponent notation with the shortest digits. *)
Example toFixed_exponent_notation :
  toFixed 2 (of_Z (2 ^ 70)) = Some "1.1805916207174113e+21"%string
  /\ toFixed 0 (decimal 1 23) = Some "1e+23"%string
  /\ toFixed 2 (decimal 15 299) = Some "1.5e+300"%string
  /\ toFixed 2 (decimal (-123456789) 20) = Some "-1.23456789e+28"%string
  /\ toFixed 2 (decimal 17976931348623157 292)
     = Some "1.7976931348623157e+308"%string
  /\ toFixed 2 (decimal 1 20) = Some "100000000000000000000.00"%string.
Proof. repeat split; vm_compute; reflexivity. Qed.

(** The freshly mounted component shows 5.00 and 73 with the two average
    lines. *)
Example mounted_panel :
  ratioText mounted = Some "5.00"%string
  /\ dsiText mounted = Some "73"%string
  /\ ratioMessage (turnoverRatio mounted)
     = "Average turnover - within normal retail range"%string
  /\ dsiMessage (daysToSell mounted)
     = "Your inventory sells at an average pace"%string.
Proof. repeat split; vm_compute; reflexivity. Qed.

(** ** Binary64 arithmetic: doubling and halving are exact *)

Section Binary64.

Lemma fexp_eq k : fexp prec emax k = Z.max (k - 53) (-1074).
Proof. reflexivity. Qed.

(** Rounding a mantissa that already sits at its canonical exponent. *)
Lemma round_exact_noshift s m e :
  fexp prec emax (Zpos (digits2_pos m) + e) = e -> e <= 971 ->
  binary_round_aux prec emax s (Zpos m) e loc_Exact = S754_finite s m e.
Proof.
  intros Hc He. unfold binary_round_aux, shr_fexp.
  cbn [Zdigits2 shr_record_of_loc]. rewrite Hc, Z.sub_diag. cbn [shr].
  cbn [shr_m loc_of_shr_record round_nearest_even Zdigits2 shr_record_of_loc].
  rewrite Hc, Z.sub_diag. cbn [shr shr_m].
  replace (e <=? emax - prec) with true; [reflexivity|].
  symmetry. apply Z.leb_le. unfold emax, prec. lia.
Qed.

(** Rounding an even mantissa that sits one exponent too low. *)
Lemma round_exact_shift1 s m e :
  fexp prec emax (Zpos (digits2_pos m) + (e + 1)) = e + 1 -> e + 1 <= 971 ->
  binary_round_aux prec emax s (Zpos m~0) e loc_Exact = S754_finite s m (e + 1).
Proof.
  intros Hc He. unfold binary_round_aux, shr_fexp.
  cbn [Zdigits2 shr_record_of_loc digits2_pos].
  rewrite Pos2Z.inj_succ.
  replace (Z.succ (Z.pos (digits2_pos m)) + e)
    with (Zpos (digits2_pos m) + (e + 1)) by lia.
  rewrite Hc. replace (e + 1 - e) with 1 by lia.
  cbn [shr iter_pos shr_1 shr_m shr_r shr_s orb loc_of_shr_record
       round_nearest_even Zdigits2 shr_record_of_loc].
  rewrite Hc, Z.sub_diag. cbn [shr shr_m].
  replace (e + 1 <=? emax - prec) with true; [reflexivity|].
  symmetry. apply Z.leb_le. unfold emax, prec. lia.
Qed.

Lemma div_eucl_exact a b q : 0 < b -> a = q * b -> Z.div_eucl a b = (q, 0).
Proof.
  intros Hb ->.
  pose proof (Z.div_mul q b) as Hd. pose proof (Z.mod_mul q b) as Hm.
  unfold Z.div, Z.modulo in Hd, Hm.
  destruct (Z.div_eucl (q * b) b) as [q' r']. cbn in Hd, Hm.
  rewrite Hd, Hm by lia. reflexivity.
Qed.

(** The quotient of a mantissa by the mantissa 2^52 of the number 2, when
    the shifted dividend is a multiple of it. *)
Lemma div_core_by_two m1 e1 q e' sh :
  Z.min (fexp prec emax (Zpos (digits2_pos m1) + e1 - 2)) (e1 + 51) = e' ->
  e1 + 51 - e' = Zpos sh ->
  Zpos m1 * 2 ^ Zpos sh = q * 4503599627370496 ->
  SFdiv_core_binary prec emax (Zpos m1) e1 4503599627370496 (-51)
    = (q, e', loc_Exact).
Proof.
  intros He Hs Hq. unfold SFdiv_core_binary.
  change (Zdigits2 4503599627370496) with 53.
  change (Zdigits2 (Zpos m1)) with (Zpos (digits2_pos m1)).
  replace (Z.pos (digits2_pos m1) + e1 - (53 + -51))
    with (Z.pos (digits2_pos m1) + e1 - 2) by lia.
  replace (e1 - -51) with (e1 + 51) by lia.
  rewrite He, Hs. cbv zeta.
  rewrite Z.shiftl_mul_pow2 by lia.
  rewrite (div_eucl_exact _ _ q) by (assumption || lia).
  reflexivity.
Qed.

(** A well-formed mantissa is normal (53 bits) or subnormal (at the least
    exponent). *)
Lemma canonical_cases m e :
  canonical_mantissa prec emax m e = true ->
  (Zpos (digits2_pos m) = 53 /\ -1074 <= e)
  \/ (Zpos (digits2_pos m) < 53 /\ e = -1074).
Proof.
  unfold canonical_mantissa. rewrite Z.eqb_eq, fexp_eq. lia.
Qed.

(** [x + x]: the exponent of a normal number goes up by one, and overflows
    past 971; the mantissa of a subnormal number doubles. *)
Lemma add_self s m e :
  valid (S754_finite s m e) = true ->
  (S754_finite s m e + S754_finite s m e)%num =
    if Zpos (digits2_pos m) =? 53
    then (if e + 1 <=? 971 then S754_finite s m (e + 1) else S754_infinity s)
    else S754_finite s m~0 e.
Proof.
  unfold valid. cbn [valid_binary]. unfold bounded.
  rewrite andb_true_iff, Z.leb_le.
  intros [Hc He]. apply canonical_cases in Hc.
  change (emax - prec) with 971 in He.
  unfold add, SFadd. rewrite Z.min_id. unfold shl_align at 1 2.
  rewrite Z.sub_diag. cbn [fst].
  assert (Hsum : cond_Zopp s (Zpos m) + cond_Zopp s (Zpos m)
                 = cond_Zopp s (Zpos m~0))
    by (destruct s; cbn [cond_Zopp]; lia).
  rewrite Hsum.
  assert (Hn : binary_normalize prec emax (cond_Zopp s (Zpos m~0)) e false
               = binary_round prec emax s m~0 e) by (destruct s; reflexivity).
  rewrite Hn. unfold binary_round. cbn [digits2_pos].
  rewrite Pos2Z.inj_succ, fexp_eq.
  destruct Hc as [[Hd Hlo] | [Hd Hlo]].
  - rewrite Hd. cbn [Z.eqb Pos.eqb].
    replace (Z.max (Z.succ 53 + e - 53) (-1074)) with (e + 1) by lia.
    unfold shl_align. replace (e + 1 - e) with 1 by lia.
    destruct (Z.leb_spec (e + 1) 971).
    + apply round_exact_shift1; [rewrite fexp_eq; lia | assumption].
    + unfold binary_round_aux, shr_fexp.
      cbn [Zdigits2 shr_record_of_loc digits2_pos].
      rewrite Pos2Z.inj_succ, Hd, fexp_eq.
      replace (Z.max (Z.succ 53 + e - 53) (-1074) - e) with 1 by lia.
      cbn [shr iter_pos shr_1 shr_m shr_r shr_s orb loc_of_shr_record
           round_nearest_even Zdigits2 shr_record_of_loc].
      rewrite Hd, fexp_eq.
      replace (Z.max (53 + (e + 1) - 53) (-1074) - (e + 1)) with 0 by lia.
      cbn [shr shr_m].
      replace (e + 1 <=? emax - prec) with false; [reflexivity|].
      symmetry. apply Z.leb_gt. unfold emax, prec. lia.
  - replace (Z.pos (digits2_pos m) =? 53) with false
      by (symmetry; apply Z.eqb_neq; lia).
    replace (Z.max (Z.succ (Z.pos (digits2_pos m)) + e - 53) (-1074))
      with e by lia.
    unfold shl_align. rewrite Z.sub_diag.
    apply round_exact_noshift; [|lia].
    cbn [digits2_pos]. rewrite Pos2Z.inj_succ, fexp_eq. lia.
Qed.

Lemma two_eq : of_Z 2 = S754_finite false 4503599627370496 (-51).
Proof. reflexivity. Qed.

Lemma halve_normal s m e :
  Zpos (digits2_pos m) = 53 -> -1074 <= e -> e <= 971 ->
  (S754_finite s m (e + 1) / of_Z 2)%num = S754_finite s m e.
Proof.
  intros Hd Hlo Hhi. rewrite two_eq. unfold div, SFdiv.
  destruct (Z.eq_dec e (-1074)) as [-> | Hne].
  - rewrite (div_core_by_two m (-1074 + 1) (Zpos m) (-1074) 52).
    + rewrite xorb_false_r.
      apply round_exact_noshift; [rewrite Hd; reflexivity | lia].
    + rewrite Hd. reflexivity.
    + reflexivity.
    + lia.
  - rewrite (div_core_by_two m (e + 1) (Zpos m~0) (e - 1) 53).
    + rewrite xorb_false_r.
      replace e with (e - 1 + 1) at 2 by lia.
      apply round_exact_shift1; [rewrite Hd, fexp_eq; lia | lia].
    + rewrite Hd, fexp_eq. lia.
    + lia.
    + lia.
Qed.

Lemma halve_subnormal s m :
  Zpos (digits2_pos m) < 53 ->
  (S754_finite s m~0 (-1074) / of_Z 2)%num = S754_finite s m (-1074).
Proof.
  intros Hd. rewrite two_eq. unfold div, SFdiv.
  rewrite (div_core_by_two m~0 (-1074) (Zpos m) (-1074) 51).
  - rewrite xorb_false_r.
    apply round_exact_noshift; [rewrite fexp_eq; lia | lia].
  - cbn [digits2_pos]. rewrite Pos2Z.inj_succ, fexp_eq. lia.
  - reflexivity.
  - lia.
Qed.

(** The average of a well-formed [x] with itself is [x], unless [x + x]
    overflows. *)
Lemma average_of_equal (x : number) :
  valid x = true ->
  (is_finite x = true -> is_finite (x + x)%num = true) ->
  ((x + x) / of_Z 2)%num = x.
Proof.
  intros Hv Hfin. destruct x as [s | s | | s m e].
  - destruct s; reflexivity.
  - destruct s; reflexivity.
  - reflexivity.
  - specialize (Hfin eq_refl). revert Hfin. rewrite (add_self s m e Hv).
    unfold valid in Hv. cbn [valid_binary] in Hv. unfold bounded in Hv.
    apply andb_true_iff in Hv. destruct Hv as [Hc He].
    apply Z.leb_le in He. change (emax - prec) with 971 in He.
    destruct (canonical_cases m e Hc) as [[Hd Hlo] | [Hd Hlo]].
    + rewrite Hd. cbn [Z.eqb Pos.eqb].
      destruct (Z.leb_spec (e + 1) 971); [|discriminate].
      intros _. apply halve_normal; assumption.
    + replace (Z.pos (digits2_pos m) =? 53) with false
        by (symmetry; apply Z.eqb_neq; lia).
      intros _. subst e. apply halve_subnormal. assumption.
Qed.

(** A mantissa of [d] bits is at least 2^([d] - 1). *)
Lemma digits2_lower (m : positive) :
  2 ^ (Zpos (digits2_pos m) - 1) <= Zpos m.
Proof.
  induction m as [p IH | p IH |]; cbn [digits2_pos];
    rewrite ?Pos2Z.inj_succ;
    try (replace (Z.succ (Z.pos (digits2_pos p)) - 1)
           with (Z.succ (Z.pos (digits2_pos p) - 1)) by lia;
         rewrite Z.pow_succ_r by lia);
    try lia.
Qed.

Lemma two_pow_1023_eq :
  of_Z (2 ^ 1023) = S754_finite false 4503599627370496 971.
Proof. vm_compute. reflexivity. Qed.

(** [x + x] is finite exactly when the magnitude of [x] is below 2^1023. *)
Lemma double_is_finite_iff (x : number) :
  valid x = true -> is_finite x = true ->
  is_finite (x + x)%num = true <-> (abs x <? of_Z (2 ^ 1023))%num = true.
Proof.
  intros Hv Hf. rewrite two_pow_1023_eq.
  destruct x as [s | s | | s m e]; try discriminate.
  - destruct s; split; intros _; reflexivity.
  - rewrite (add_self s m e Hv).
    unfold valid in Hv. cbn [valid_binary] in Hv. unfold bounded in Hv.
    apply andb_true_iff in Hv. destruct Hv as [Hc He].
    apply Z.leb_le in He. change (emax - prec) with 971 in He.
    unfold lt, abs, SFltb. cbn [SFabs SFcompare].
    pose proof (digits2_lower m) as Hm.
    destruct (canonical_cases m e Hc) as [[Hd Hlo] | [Hd Hlo]].
    + rewrite Hd in Hm |- *. cbn [Z.eqb Pos.eqb].
      change (2 ^ (53 - 1)) with 4503599627370496 in Hm.
      destruct (Z.compare_spec e 971) as [E | Hlt | Hgt]; [| | exfalso; lia].
      * subst e. rewrite Pos.compare_cont_spec. cbn [Pos.switch_Eq].
        replace (971 + 1 <=? 971) with false by reflexivity.
        destruct (Pos.compare_spec m 4503599627370496) as [E | E | E];
          cbn [is_finite]; try (split; intros H; discriminate H).
        exfalso. apply Pos2Z.pos_lt_pos in E. lia.
      * destruct (Z.leb_spec (e + 1) 971); [|exfalso; lia].
        split; intros _; reflexivity.
    + replace (Z.pos (digits2_pos m) =? 53) with false
        by (symmetry; apply Z.eqb_neq; lia).
      subst e. split; intros _; reflexivity.
Qed.

(** Ordering against a positive constant. *)
Lemma lt_gt_exclusive (lo hi x : number) :
  (lo <? hi)%num = true ->
  is_finite lo = true -> is_finite hi = true ->
  (x <? lo)%num = true -> (x >? hi)%num = false.
Proof.
  unfold lt, gt, SFltb.
  destruct lo as [sl | sl | | sl ml el]; try discriminate;
  destruct hi as [sh | sh | | sh mh eh]; try discriminate;
  destruct x as [sx | sx | | sx mx ex]; cbn [SFcompare is_finite];
  try destruct sl; try destruct sh; try destruct sx;
  try discriminate; try reflexivity; intros Hlh _ _;
  repeat match goal with
    | H : context [Z.compare ?a ?b] |- _ =>
        destruct (Z.compare_spec a b); try discriminate
    | |- context [Z.compare ?a ?b] =>
        destruct (Z.compare_spec a b); try discriminate; try reflexivity
    end;
  try lia; subst;
  rewrite ?Pos.compare_cont_spec in *; cbn [Pos.switch_Eq] in *;
  repeat match goal with
    | H : context [Pos.compare ?a ?b] |- _ =>
        destruct (Pos.compare_spec a b); try discriminate
    | |- context [Pos.compare ?a ?b] =>
        destruct (Pos.compare_spec a b); try discriminate; try reflexivity
    end;
  cbn [CompOpp] in *; try discriminate; try reflexivity; try lia.
Qed.

End Binary64.

(** ** The computation *)

(** C1.  For every mode and every input set with positive effective average
    inventory, the computed turnover ratio is the cost of goods sold divided
    by the effective average inventory, and the computed DSI is 365 divided
    by that ratio; the effective average inventory is half the sum of
    beginning and ending inventory in COGS mode and the average inventory as
    supplied in direct-average mode. *)
Theorem compute_ratio_and_dsi
  (mode : CalculationMethod) (inputs : CalculatorValues) (prev : State) :
  (of_Z 0 <? effectiveAverageInventory mode inputs)%num = true ->
  turnoverRatio (compute mode inputs prev)
    = (costOfGoodsSold inputs / effectiveAverageInventory mode inputs)%num
  /\ daysToSell (compute mode inputs prev)
     = (of_Z 365 / turnoverRatio (compute mode inputs prev))%num
  /\ effectiveAverageInventory COGS_AVERAGE inputs
     = ((beginningInventory inputs + endingInventory inputs) / of_Z 2)%num
  /\ effectiveAverageInventory DIRECT_AVERAGE inputs = averageInventory inputs.
Proof.
  intros _. destruct mode; repeat split; reflexivity.
Qed.

Lemma compute_ratio_and_dsi_witness :
  (of_Z 0 <? effectiveAverageInventory cogs (values initialState))%num = true
  /\ turnoverRatio (compute cogs (values initialState) initialState) = of_Z 5
  /\ daysToSell (compute cogs (values initialState) initialState) = of_Z 73.
Proof.
  split; [reflexivity|].
  destruct (compute_ratio_and_dsi cogs (values initialState) initialState
              eq_refl) as (Hr & Hd & _).
  split; [rewrite Hr | rewrite Hd, Hr]; reflexivity.
Defined.

(** C2, as the code has it.  When the effective average inventory is zero no
    sentinel is produced: the ratio is NaN when the cost of goods sold is
    zero or NaN and an infinity otherwise, the DSI is then NaN or a zero, and
    the panel prints the ratio as NaN, Infinity or -Infinity. *)
Theorem zero_inventory_is_unguarded
  (mode : CalculationMethod) (inputs : CalculatorValues) (prev : State) :
  is_zero (effectiveAverageInventory mode inputs) = true ->
  is_finite (turnoverRatio (compute mode inputs prev)) = false
  /\ (truthy (costOfGoodsSold inputs) = false ->
      turnoverRatio (compute mode inputs prev) = NaN
      /\ daysToSell (compute mode inputs prev) = NaN
      /\ ratioText (compute mode inputs prev) = Some "NaN"%string
      /\ dsiText (compute mode inputs prev) = Some "NaN"%string)
  /\ (truthy (costOfGoodsSold inputs) = true ->
      exists negative : bool,
        turnoverRatio (compute mode inputs prev) = S754_infinity negative
        /\ daysToSell (compute mode inputs prev) = S754_zero negative
        /\ ratioText (compute mode inputs prev)
           = Some (if negative then "-Infinity" else "Infinity")%string
        /\ dsiText (compute mode inputs prev) = Some "0"%string).
Proof.
  intros Hz.
  assert (Hr : turnoverRatio (compute mode inputs prev)
               = (costOfGoodsSold inputs / effectiveAverageInventory mode inputs)%num)
    by (destruct mode; reflexivity).
  assert (Hd : daysToSell (compute mode inputs prev)
               = (of_Z 365 / turnoverRatio (compute mode inputs prev))%num)
    by (destruct mode; reflexivity).
  unfold ratioText, dsiText. rewrite Hd, Hr.
  destruct (effectiveAverageInventory mode inputs) as [sz | | |];
    try discriminate.
  destruct (costOfGoodsSold inputs) as [sc | sc | | sc mc ec];
    cbn [div SFdiv truthy is_finite]; repeat split;
    try discriminate; try reflexivity; intros _;
    exists (xorb sc sz); destruct (xorb sc sz); repeat split; reflexivity.
Qed.

Lemma zero_inventory_is_unguarded_witness :
  is_zero (effectiveAverageInventory COGS_AVERAGE inputs3) = true
  /\ is_finite (turnoverRatio scenario3) = false.
Proof.
  split; [reflexivity|].
  exact (proj1 (zero_inventory_is_unguarded COGS_AVERAGE inputs3 initialState
                  eq_refl)).
Defined.

(** C2 as stated fails on scenario 3: with COGS 500,000 and both inventories
    0 the effective average inventory is 0, the ratio is Infinity and the
    panel prints it as such. *)
Lemma zero_inventory_surfaces_Infinity :
  effectiveAverageInventory COGS_AVERAGE inputs3 = of_Z 0
  /\ turnoverRatio scenario3 = Infinity
  /\ ratioText scenario3 = Some "Infinity"%string
  /\ run [InputChange "beginningInventory" "0";
          InputChange "endingInventory" "0";
          InputChange "costOfGoodsSold" "500000"]
     = compute COGS_AVERAGE inputs3 mounted
  /\ ratioText (compute COGS_AVERAGE inputs3 mounted) = Some "Infinity"%string.
Proof. repeat split; vm_compute; reflexivity. Qed.

(** C3, as the code has it.  For every cost of goods sold and every
    well-formed value [x] that is not finite or whose magnitude is below
    2^1023 (so that [x + x] does not overflow), the two modes yield the same
    ratio, DSI and datasets when beginning, ending and average inventory all
    equal [x]. *)
Theorem modes_agree_on_equal_inventory (c x : number) (prev : State) :
  valid x = true ->
  (is_finite x = true -> (abs x <? of_Z (2 ^ 1023))%num = true) ->
  turnoverRatio (compute COGS_AVERAGE (same_inventory c x) prev)
    = turnoverRatio (compute DIRECT_AVERAGE (same_inventory c x) prev)
  /\ daysToSell (compute COGS_AVERAGE (same_inventory c x) prev)
     = daysToSell (compute DIRECT_AVERAGE (same_inventory c x) prev)
  /\ benchmarkData (compute COGS_AVERAGE (same_inventory c x) prev)
     = benchmarkData (compute DIRECT_AVERAGE (same_inventory c x) prev)
  /\ comparisonData (compute COGS_AVERAGE (same_inventory c x) prev)
     = comparisonData (compute DIRECT_AVERAGE (same_inventory c x) prev).
Proof.
  intros Hv Hsmall.
  assert (Hfin : is_finite x = true -> is_finite (x + x)%num = true)
    by (intros Hf; apply (double_is_finite_iff x Hv Hf), Hsmall, Hf).
  assert (Hr : turnoverRatio (compute COGS_AVERAGE (same_inventory c x) prev)
               = turnoverRatio (compute DIRECT_AVERAGE (same_inventory c x) prev)).
  { change (c / ((x + x) / of_Z 2) = c / x)%num.
    rewrite (average_of_equal x Hv Hfin). reflexivity. }
  repeat split.
  - exact Hr.
  - change (of_Z 365 / turnoverRatio (compute COGS_AVERAGE (same_inventory c x) prev)
            = of_Z 365 / turnoverRatio (compute DIRECT_AVERAGE (same_inventory c x) prev))%num.
    rewrite Hr. reflexivity.
  - change ([ {| name := "Your Business";
                 value := turnoverRatio (compute COGS_AVERAGE (same_inventory c x) prev) |};
              {| name := "Industry Avg."; value := decimal 38 (-1) |} ]
            = [ {| name := "Your Business";
                   value := turnoverRatio (compute DIRECT_AVERAGE (same_inventory c x) prev) |};
                {| name := "Industry Avg."; value := decimal 38 (-1) |} ]).
    rewrite Hr. reflexivity.
Qed.

Lemma modes_agree_on_equal_inventory_witness :
  valid (of_Z 200000) = true
  /\ (abs (of_Z 200000) <? of_Z (2 ^ 1023))%num = true
  /\ turnoverRatio (compute COGS_AVERAGE
                      (same_inventory (of_Z 1000000) (of_Z 200000)) initialState)
     = turnoverRatio (compute DIRECT_AVERAGE
                        (same_inventory (of_Z 1000000) (of_Z 200000)) initialState).
Proof.
  assert (Hv : valid (of_Z 200000) = true) by (vm_compute; reflexivity).
  assert (Hs : (abs (of_Z 200000) <? of_Z (2 ^ 1023))%num = true)
    by (vm_compute; reflexivity).
  split; [exact Hv|]. split; [exact Hs|].
  exact (proj1 (modes_agree_on_equal_inventory (of_Z 1000000) (of_Z 200000)
                  initialState Hv (fun _ => Hs))).
Defined.

(** C3 as stated fails at X = 1e308 with COGS 1e308: the sum of beginning and
    ending inventory overflows, so COGS mode divides by Infinity (ratio 0,
    DSI Infinity) where direct-average mode divides by 1e308 (ratio 1, DSI
    365). *)
Lemma modes_differ_when_the_sum_overflows :
  parseFloat "1e308" = big
  /\ valid big = true /\ is_finite big = true
  /\ (abs big <? of_Z (2 ^ 1023))%num = false
  /\ effectiveAverageInventory COGS_AVERAGE (same_inventory big big) = Infinity
  /\ turnoverRatio (compute COGS_AVERAGE (same_inventory big big) initialState)
     = of_Z 0
  /\ daysToSell (compute COGS_AVERAGE (same_inventory big big) initialState)
     = Infinity
  /\ turnoverRatio (compute DIRECT_AVERAGE (same_inventory big big) initialState)
     = of_Z 1
  /\ daysToSell (compute DIRECT_AVERAGE (same_inventory big big) initialState)
     = of_Z 365
  /\ turnoverRatio (compute COGS_AVERAGE (same_inventory big big) initialState)
     <> turnoverRatio (compute DIRECT_AVERAGE (same_inventory big big) initialState).
Proof. repeat split; try (vm_compute; reflexivity). vm_compute. discriminate. Qed.

(** ** The category lines *)

(** C4.  The ratio line is the low-turnover one exactly when the ratio is
    below 2, the high-turnover one exactly when it is above 6, and the
    average one otherwise; the DSI line is the slow one exactly when the DSI
    is above 180, the fast one exactly when it is below 60, and the
    average-pace one otherwise.  All four inequalities are strict: a ratio of
    exactly 2 is not low and a ratio of exactly 6 is not high. *)
Theorem category_thresholds (r d : number) :
  (ratioMessage r = "Low turnover - consider reducing inventory levels"%string
   <-> (r <? of_Z 2)%num = true)
  /\ (ratioMessage r = "High turnover - efficient inventory management"%string
      <-> (r >? of_Z 6)%num = true)
  /\ (ratioMessage r = "Average turnover - within normal retail range"%string
      <-> (r <? of_Z 2)%num = false /\ (r >? of_Z 6)%num = false)
  /\ (dsiMessage d = "Your inventory takes a long time to sell"%string
      <-> (d >? of_Z 180)%num = true)
  /\ (dsiMessage d = "Your inventory sells very quickly"%string
      <-> (d <? of_Z 60)%num = true)
  /\ (dsiMessage d = "Your inventory sells at an average pace"%string
      <-> (d >? of_Z 180)%num = false /\ (d <? of_Z 60)%num = false)
  /\ ratioMessage (of_Z 2) = "Average turnover - within normal retail range"%string
  /\ ratioMessage (of_Z 6) = "Average turnover - within normal retail range"%string
  /\ dsiMessage (of_Z 180) = "Your inventory sells at an average pace"%string
  /\ dsiMessage (of_Z 60) = "Your inventory sells at an average pace"%string.
Proof.
  pose proof (lt_gt_exclusive (of_Z 2) (of_Z 6) r eq_refl eq_refl eq_refl) as Hr.
  pose proof (lt_gt_exclusive (of_Z 60) (of_Z 180) d eq_refl eq_refl eq_refl) as Hd.
  unfold ratioMessage, dsiMessage.
  destruct (r <? of_Z 2)%num eqn:Hlow; destruct (r >? of_Z 6)%num eqn:Hhigh;
    try (specialize (Hr eq_refl); discriminate Hr);
    destruct (d <? of_Z 60)%num eqn:Hfast; destruct (d >? of_Z 180)%num eqn:Hslow;
    try (specialize (Hd eq_refl); discriminate Hd);
    repeat split; intros; try discriminate; try reflexivity;
    match goal with H : _ /\ _ |- _ => destruct H; discriminate end.
Qed.

(** ** The concrete scenarios *)

(** C5.  Scenario 1 (COGS mode, 1,000,000 / 250,000 / 150,000) and scenario 2
    (direct-average mode, 1,000,000 / 200,000) both have effective average
    inventory 200,000, ratio 5 printed 5.00 and DSI 73 printed 73, and they
    yield the same result; scenario 1 is also what the freshly mounted
    component shows. *)
Theorem scenarios_1_and_2 (a b e : number) (prev : State) :
  effectiveAverageInventory COGS_AVERAGE
    (inputs (of_Z 1000000) (of_Z 250000) (of_Z 150000) a) = of_Z 200000
  /\ effectiveAverageInventory DIRECT_AVERAGE
       (inputs (of_Z 1000000) b e (of_Z 200000)) = of_Z 200000
  /\ turnoverRatio (scenario1 a prev) = of_Z 5
  /\ daysToSell (scenario1 a prev) = of_Z 73
  /\ ratioText (scenario1 a prev) = Some "5.00"%string
  /\ dsiText (scenario1 a prev) = Some "73"%string
  /\ turnoverRatio (scenario2 b e prev) = of_Z 5
  /\ daysToSell (scenario2 b e prev) = of_Z 73
  /\ ratioText (scenario2 b e prev) = Some "5.00"%string
  /\ dsiText (scenario2 b e prev) = Some "73"%string
  /\ turnoverRatio (scenario1 a prev) = turnoverRatio (scenario2 b e prev)
  /\ daysToSell (scenario1 a prev) = daysToSell (scenario2 b e prev)
  /\ benchmarkData (scenario1 a prev) = benchmarkData (scenario2 b e prev)
  /\ comparisonData (scenario1 a prev) = comparisonData (scenario2 b e prev)
  /\ mounted = scenario1 (of_Z 200000) initialState.
Proof. repeat split; vm_compute; reflexivity. Qed.

(** ** Input coercion *)

Lemma stored_value (name value : string) (s : State) :
  field name (values s) <> None ->
  field name (values (handleInputChange name value s))
    = Some (parseFloat value || of_Z 0)%num.
Proof.
  unfold field, handleInputChange, assign. cbn [values setValues].
  repeat match goal with
    | |- context [String.eqb name ?k] =>
        destruct (String.eqb_spec name k); [subst name; intros _; reflexivity|]
    end.
  intros H. contradiction H. reflexivity.
Qed.

Lemma parseFloat_blank (value : string) :
  trim_start value = EmptyString -> parseFloat value = NaN.
Proof. unfold parseFloat. intros ->. reflexivity. Qed.

(** Text whose first character after the white space cannot start a literal. *)
Lemma parseFloat_no_literal (value : string) (c : ascii) (rest : string) :
  trim_start value = String c rest ->
  digit_of c = None ->
  c <> "+"%char -> c <> "-"%char -> c <> "."%char -> c <> "I"%char ->
  parseFloat value = NaN.
Proof.
  intros Ht Hd Hp Hm Hdot HI. unfold parseFloat. rewrite Ht.
  assert (Hs : sign (String c rest) = (false, String c rest)).
  { unfold sign. destruct c as [[] [] [] [] [] [] [] []]; try reflexivity;
      exfalso; auto. }
  rewrite Hs. unfold literal.
  assert (Hi : prefix "Infinity" (String c rest) = false).
  { cbn [prefix]. destruct (ascii_dec "I" c) as [E | E]; [|reflexivity].
    exfalso. auto. }
  rewrite Hi. cbn [digits]. rewrite Hd.
  destruct c as [[] [] [] [] [] [] [] []]; try reflexivity; exfalso; auto.
Qed.

(** The handler on any value of the event's target: the value stored in the
    named field is never NaN; it is 0 when [parseFloat] reads no number from
    the value and when it reads a zero; otherwise it is the number
    [parseFloat] reads. *)
Lemma input_coercion (name value : string) (s : State) :
  field name (values s) <> None ->
  exists v : number,
    field name (values (handleInputChange name value s)) = Some v
    /\ v <> NaN
    /\ (parseFloat value = NaN -> v = of_Z 0)
    /\ (trim_start value = EmptyString -> v = of_Z 0)
    /\ (forall c rest, trim_start value = String c rest ->
          digit_of c = None ->
          c <> "+"%char -> c <> "-"%char -> c <> "."%char -> c <> "I"%char ->
          v = of_Z 0)
    /\ (is_zero (parseFloat value) = true -> v = of_Z 0)
    /\ (truthy (parseFloat value) = true -> v = parseFloat value).
Proof.
  intros Hname. exists (parseFloat value || of_Z 0)%num.
  split; [apply stored_value; assumption|].
  assert (Hnan : parseFloat value = NaN -> (parseFloat value || of_Z 0)%num = of_Z 0)
    by (intros ->; reflexivity).
  repeat split.
  - unfold or_else. destruct (parseFloat value); cbn [truthy]; discriminate.
  - exact Hnan.
  - intros H. apply Hnan, parseFloat_blank, H.
  - intros c rest Ht Hd Hp Hm Hdot HI.
    apply Hnan. eapply parseFloat_no_literal; eassumption.
  - unfold or_else. destruct (parseFloat value); cbn [is_zero truthy];
      try discriminate; reflexivity.
  - unfold or_else. intros ->. reflexivity.
Qed.

(** ** What a number field delivers *)

Section NumberFields.

Lemma digit_of_range (c : ascii) (d : Z) :
  digit_of c = Some d -> (48 <= nat_of_ascii c <= 57)%nat.
Proof.
  unfold digit_of.
  destruct (48 <=? Z.of_nat (nat_of_ascii c)) eqn:Hlo; [|discriminate].
  destruct (Z.of_nat (nat_of_ascii c) <=? 57) eqn:Hhi; [|discriminate].
  intros _. apply Z.leb_le in Hlo, Hhi. lia.
Qed.

(** Text that starts with a minus sign, a point or a digit has no leading
    white space. *)
Lemma trim_start_literal_start (c : ascii) (t : string) :
  (45 <= nat_of_ascii c <= 57)%nat ->
  trim_start (String c t) = String c t.
Proof.
  intros Hc.
  destruct c as [[] [] [] [] [] [] [] []];
    cbn in Hc; try (exfalso; lia);
    destruct t as [| c1 [| c2 t2]]; reflexivity.
Qed.

(** The digits read and the text left do not depend on the accumulator. *)
Lemma digits_independent (s : string) :
  forall a c a' c',
    snd (digits s a c) = snd (digits s a' c')
    /\ snd (fst (digits s a c)) - c = snd (fst (digits s a' c')) - c'.
Proof.
  induction s as [| ch s IH]; intros a c a' c'; cbn [digits].
  - cbn [fst snd]. split; [reflexivity | lia].
  - destruct (digit_of ch) as [d |].
    + destruct (IH (10 * a + d) (c + 1) (10 * a' + d) (c' + 1)) as [H1 H2].
      split; [exact H1 | lia].
    + cbn [fst snd]. split; [reflexivity | lia].
Qed.

Lemma digits_count (s : string) :
  forall a c, c <= snd (fst (digits s a c)).
Proof.
  induction s as [| ch s IH]; intros a c; cbn [digits].
  - cbn [fst snd]. lia.
  - destruct (digit_of ch) as [d |].
    + specialize (IH (10 * a + d) (c + 1)). lia.
    + cbn [fst snd]. lia.
Qed.

Lemma literal_by_cases (s : string) :
  literal s
  = if prefix "Infinity" s then
      Some (Infinity, substring 8 (String.length s - 8) s)
    else
      let '(i, ni, s1) := digits s 0 0 in
      match after_point s1 with
      | Some s2 =>
          let '(m, nf, s3) := digits s2 i 0 in
          if 0 <? ni + nf then
            let '(e, rest) := exponent s3 in Some (decimal m (e - nf), rest)
          else None
      | None =>
          if 0 <? ni then
            let '(e, rest) := exponent s1 in Some (decimal i e, rest)
          else None
      end.
Proof.
  unfold literal. destruct (prefix "Infinity" s); [reflexivity|].
  destruct (digits s 0 0) as [[i ni] s1].
  destruct s1 as [| c rest]; [reflexivity|].
  destruct c as [[] [] [] [] [] [] [] []]; reflexivity.
Qed.

Lemma valid_by_cases (s : string) :
  valid_floating_point_number s
  = let body := match s with String "-"%char r => r | _ => s end in
    let '(_, ni, s1) := digits body 0 0 in
    match after_point s1 with
    | Some s2 =>
        let '(_, nf, s3) := digits s2 0 0 in
        (0 <? nf) && exponent_part s3
    | None => (0 <? ni) && exponent_part s1
    end.
Proof.
  unfold valid_floating_point_number. cbv zeta.
  destruct (digits _ 0 0) as [[i ni] s1].
  destruct s1 as [| c rest]; [reflexivity|].
  destruct c as [[] [] [] [] [] [] [] []]; reflexivity.
Qed.

(** An exponent that ends the text is read in full by [parseFloat]. *)
Lemma exponent_part_read (s : string) :
  exponent_part s = true -> snd (exponent s) = EmptyString.
Proof.
  destruct s as [| c s1]; [reflexivity|].
  cbn [exponent_part exponent].
  destruct (Ascii.eqb c "e" || Ascii.eqb c "E")%bool; [|discriminate].
  cbn [andb].
  destruct (sign s1) as [minus s2].
  destruct (digits s2 0 0) as [[e n] rest].
  destruct (0 <? n); [|discriminate]. cbn [andb snd].
  destruct rest; [reflexivity | discriminate].
Qed.

(** The unsigned part of a valid floating-point number is a literal that
    [parseFloat] reads to its end. *)
Lemma valid_body_read (body : string) :
  (let '(_, ni, s1) := digits body 0 0 in
   match after_point s1 with
   | Some s2 =>
       let '(_, nf, s3) := digits s2 0 0 in
       (0 <? nf) && exponent_part s3
   | None => (0 <? ni) && exponent_part s1
   end) = true ->
  exists a : number, literal body = Some (a, EmptyString).
Proof.
  intros Hv. rewrite literal_by_cases.
  assert (Hinf : prefix "Infinity" body = false).
  { destruct body as [| c t]; [reflexivity|].
    cbn [prefix]. destruct (ascii_dec "I" c) as [<- |]; [|reflexivity].
    exfalso. cbn in Hv. discriminate Hv. }
  rewrite Hinf.
  pose proof (digits_count body 0 0) as Hni.
  destruct (digits body 0 0) as [[i ni] s1]. cbn [fst snd] in Hni.
  destruct (after_point s1) as [s2 |].
  - pose proof (digits_independent s2 i 0 0 0) as [Hrest Hcount].
    pose proof (digits_count s2 i 0) as Hnf.
    destruct (digits s2 0 0) as [[m0 nf0] s3'].
    destruct (digits s2 i 0) as [[m nf] s3].
    cbn [fst snd] in Hrest, Hcount, Hnf. subst s3'.
    apply andb_true_iff in Hv. destruct Hv as [Hpos Hexp].
    apply Z.ltb_lt in Hpos.
    replace (0 <? ni + nf) with true by (symmetry; apply Z.ltb_lt; lia).
    pose proof (exponent_part_read s3 Hexp) as Hread.
    destruct (exponent s3) as [e rest]. cbn [snd] in Hread. subst rest.
    eexists. reflexivity.
  - apply andb_true_iff in Hv. destruct Hv as [Hpos Hexp].
    rewrite Hpos.
    pose proof (exponent_part_read s1 Hexp) as Hread.
    destruct (exponent s1) as [e rest]. cbn [snd] in Hread. subst rest.
    eexists. reflexivity.
Qed.

(** The unsigned part of a valid floating-point number starts with a digit
    or a point. *)
Lemma valid_body_start (body : string) :
  (let '(_, ni, s1) := digits body 0 0 in
   match after_point s1 with
   | Some s2 =>
       let '(_, nf, s3) := digits s2 0 0 in
       (0 <? nf) && exponent_part s3
   | None => (0 <? ni) && exponent_part s1
   end) = true ->
  exists c t, body = String c t /\ (46 <= nat_of_ascii c <= 57)%nat
              /\ c <> "/"%char.
Proof.
  destruct body as [| c t]; [cbn; discriminate|].
  intros Hv. exists c, t. split; [reflexivity|].
  cbn [digits] in Hv.
  destruct (digit_of c) as [d |] eqn:Hd.
  - pose proof (digit_of_range c d Hd) as Hr.
    split; [lia|]. intros ->. cbn in Hr. lia.
  - cbn [after_point] in Hv.
    destruct (Ascii.eqb_spec c ".") as [-> | Hne].
    + split; [cbn; lia | discriminate].
    + cbn in Hv. discriminate Hv.
Qed.

(** Every valid floating-point number is numeric text: [parseFloat] reads
    all of it. *)
Lemma valid_is_numeric (typed : string) :
  valid_floating_point_number typed = true -> numeric typed = true.
Proof.
  rewrite valid_by_cases. cbv zeta. unfold numeric.
  destruct typed as [| c t]; [cbn; discriminate|].
  destruct (Ascii.eqb_spec c "-") as [-> | Hminus].
  - intros Hv.
    rewrite (trim_start_literal_start "-" t) by (cbn; lia).
    cbn [sign].
    destruct (valid_body_read t Hv) as [a Ha]. rewrite Ha. reflexivity.
  - assert (Hbody : match String c t with
                    | String "-"%char r => r
                    | _ => String c t
                    end = String c t).
    { destruct c as [[] [] [] [] [] [] [] []]; try reflexivity.
      contradiction Hminus. reflexivity. }
    rewrite Hbody. intros Hv.
    destruct (valid_body_start _ Hv) as (c' & t' & Heq & Hr & Hslash).
    injection Heq as <- <-.
    rewrite (trim_start_literal_start c t) by lia.
    assert (Hsign : sign (String c t) = (false, String c t)).
    { unfold sign. destruct c as [[] [] [] [] [] [] [] []]; try reflexivity;
        cbn in Hr; exfalso; lia. }
    rewrite Hsign.
    destruct (valid_body_read _ Hv) as [a Ha]. rewrite Ha. reflexivity.
Qed.

Lemma sanitize_invalid (typed : string) :
  valid_floating_point_number typed = false -> sanitize typed = EmptyString.
Proof. unfold sanitize. intros ->. reflexivity. Qed.

Lemma sanitize_valid (typed : string) :
  valid_floating_point_number typed = true -> sanitize typed = typed.
Proof. unfold sanitize. intros ->. reflexivity. Qed.

End NumberFields.

(** C6.  Whatever text is entered in one of the four number fields, no error
    is surfaced and the stored value is never NaN: text that is not a valid
    number, the empty text included, reaches the handler as the empty string
    and is stored as 0; text that is a valid number is read by [parseFloat]
    to its end and stored as that number (as 0 when it is a zero). *)
Theorem number_field_coerces_non_numeric_text
  (name typed : string) (s : State) :
  field name (values s) <> None ->
  exists v : number,
    field name (values (dispatch (change name typed) s)) = Some v
    /\ v <> NaN
    /\ (valid_floating_point_number typed = false -> v = of_Z 0)
    /\ (typed = EmptyString -> v = of_Z 0)
    /\ (valid_floating_point_number typed = true ->
        numeric typed = true /\ v = (parseFloat typed || of_Z 0)%num).
Proof.
  intros Hname. exists (parseFloat (sanitize typed) || of_Z 0)%num.
  split.
  { change (field name (values (handleInputChange name (sanitize typed) s))
            = Some (parseFloat (sanitize typed) || of_Z 0)%num).
    apply stored_value. exact Hname. }
  assert (Hinvalid : valid_floating_point_number typed = false ->
                     (parseFloat (sanitize typed) || of_Z 0)%num = of_Z 0)
    by (intros H; rewrite (sanitize_invalid typed H); reflexivity).
  repeat split.
  - unfold or_else.
    destruct (parseFloat (sanitize typed)); cbn [truthy]; discriminate.
  - exact Hinvalid.
  - intros ->. apply Hinvalid. reflexivity.
  - apply valid_is_numeric. assumption.
  - rewrite sanitize_valid by assumption. reflexivity.
Qed.

Lemma number_field_coerces_non_numeric_text_witness :
  field "costOfGoodsSold" (values mounted) <> None
  /\ valid_floating_point_number "12abc" = false
  /\ field "costOfGoodsSold"
       (values (dispatch (change "costOfGoodsSold" "12abc") mounted))
     = Some (of_Z 0).
Proof.
  assert (H : field "costOfGoodsSold" (values mounted) <> None) by discriminate.
  split; [exact H|]. split; [reflexivity|].
  destruct (number_field_coerces_non_numeric_text "costOfGoodsSold" "12abc"
              mounted H) as (v & Hv & _ & Hinvalid & _).
  rewrite Hv, (Hinvalid eq_refl). reflexivity.
Defined.

(** What the validity test accepts and what it turns away. *)
Example valid_floating_point_numbers :
  map valid_floating_point_number
    ["0"; "250000"; "-5"; "12.5"; ".5"; "-.5e-3"; "1e308"; "1E+2"]%string
  = [true; true; true; true; true; true; true; true]
  /\ map valid_floating_point_number
       [""; "12abc"; "abc"; "5."; "+5"; " 5"; "5 "; "1e"; "1e+"; "-";
        "."; "1.5.7"; "Infinity"; "0x10"; "--5"]%string
     = [false; false; false; false; false; false; false; false; false; false;
        false; false; false; false; false].
Proof. split; vm_compute; reflexivity. Qed.

(** ** The chart datasets *)

(** C7.  Whatever the mode and the inputs, the benchmark dataset is the five
    fixed entries Apparel 4.5, Electronics 5.2, Grocery 12.8, Furniture 2.3
    and General Retail 3.8, and the comparison dataset is the pair of the
    computed ratio, under Your Business, and the constant 3.8, under Industry
    Avg. *)
Theorem datasets_are_fixed
  (mode : CalculationMethod) (inputs : CalculatorValues) (prev : State) :
  benchmarkData (compute mode inputs prev)
    = [ {| name := "Apparel"; value := decimal 45 (-1) |};
        {| name := "Electronics"; value := decimal 52 (-1) |};
        {| name := "Grocery"; value := decimal 128 (-1) |};
        {| name := "Furniture"; value := decimal 23 (-1) |};
        {| name := "General Retail"; value := decimal 38 (-1) |} ]
  /\ map (fun entry => (name entry, toFixed 1 (value entry)))
         (benchmarkData (compute mode inputs prev))
     = [ ("Apparel", Some "4.5"); ("Electronics", Some "5.2");
         ("Grocery", Some "12.8"); ("Furniture", Some "2.3");
         ("General Retail", Some "3.8") ]%string
  /\ comparisonData (compute mode inputs prev)
     = [ {| name := "Your Business";
            value := turnoverRatio (compute mode inputs prev) |};
         {| name := "Industry Avg."; value := decimal 38 (-1) |} ]
  /\ toFixed 1 (decimal 38 (-1)) = Some "3.8"%string.
Proof.
  destruct mode; repeat split; try reflexivity; vm_compute; reflexivity.
Qed.

(** ** No hidden state *)

Lemma calculateResults_reads (s : State) :
  method (calculateResults s) = method s
  /\ values (calculateResults s) = values s.
Proof. split; reflexivity. Qed.

(** C8.  The result is a function of the method and the values alone: two
    components that hold the same method and the same values hold the same
    ratio, DSI and datasets after [calculateResults], whatever their derived
    cells held before. *)
Theorem results_depend_only_on_method_and_values (s1 s2 : State) :
  method s1 = method s2 ->
  values s1 = values s2 ->
  calculateResults s1 = calculateResults s2.
Proof.
  destruct s1, s2. cbn [method values]. intros -> ->. reflexivity.
Qed.

Lemma results_depend_only_on_method_and_values_witness :
  initialState <> mounted
  /\ calculateResults initialState = calculateResults mounted.
Proof.
  split; [vm_compute; discriminate|].
  apply (results_depend_only_on_method_and_values initialState mounted);
    reflexivity.
Defined.

(** Recomputing changes nothing. *)
Lemma calculateResults_idempotent (s : State) :
  calculateResults (calculateResults s) = calculateResults s.
Proof. destruct s. reflexivity. Qed.

(** One event keeps the derived cells in step with the method and values. *)
Lemma dispatch_in_sync (e : Event) (s : State) :
  calculateResults s = s -> calculateResults (dispatch e s) = dispatch e s.
Proof.
  intros Hs. destruct e as [name value | value]; cbn [dispatch].
  - apply calculateResults_idempotent.
  - destruct (method_eqb (asCalculationMethod value) (method s));
      [exact Hs | apply calculateResults_idempotent].
Qed.

(** After any sequence of events on the mounted component the derived cells
    are those of the current method and values: recomputing changes
    nothing. *)
Theorem run_in_sync (es : list Event) : calculateResults (run es) = run es.
Proof.
  unfold run.
  assert (H : forall s, calculateResults s = s ->
                calculateResults (fold_left (fun s e => dispatch e s) es s)
                = fold_left (fun s e => dispatch e s) es s).
  { induction es as [| e es IH]; intros s Hs; cbn [fold_left].
    - exact Hs.
    - apply IH, dispatch_in_sync, Hs. }
  apply H. apply calculateResults_idempotent.
Qed.

(** Neither [NaN] nor [-0] is ever stored in a field. *)
Lemma or_else_storable (a : number) : storable (a || of_Z 0)%num = true.
Proof. unfold or_else. destruct a as [s | s | | s m e]; reflexivity. Qed.

Lemma assign_storable (vs : CalculatorValues) (name : string) (v : number) :
  all_storable vs = true -> storable v = true ->
  all_storable (assign vs name v) = true.
Proof.
  unfold all_storable, assign. intros Hvs Hv.
  apply andb_true_iff in Hvs. destruct Hvs as [Hvs Ha].
  apply andb_true_iff in Hvs. destruct Hvs as [Hvs He].
  apply andb_true_iff in Hvs. destruct Hvs as [Hc Hb].
  repeat match goal with
    | |- context [String.eqb name ?k] => destruct (String.eqb name k)
    end;
  cbn [costOfGoodsSold beginningInventory endingInventory averageInventory];
  rewrite ?Hc, ?Hb, ?He, ?Ha, ?Hv; reflexivity.
Qed.

Lemma dispatch_storable (e : Event) (s : State) :
  all_storable (values s) = true ->
  all_storable (values (dispatch e s)) = true.
Proof.
  intros Hs. destruct e as [name value | tab]; cbn [dispatch].
  - change (all_storable
              (assign (values s) name (parseFloat value || of_Z 0)%num) = true).
    apply assign_storable; [exact Hs | apply or_else_storable].
  - destruct (method_eqb (asCalculationMethod tab) (method s)); exact Hs.
Qed.

(** After any sequence of events on the mounted component none of the four
    stored fields is [NaN] or [-0]. *)
Theorem stored_fields_are_storable (es : list Event) :
  all_storable (values (run es)) = true.
Proof.
  unfold run.
  assert (H : forall s, all_storable (values s) = true ->
                all_storable
                  (values (fold_left (fun s e => dispatch e s) es s)) = true).
  { induction es as [| e es IH]; intros s Hs; cbn [fold_left].
    - exact Hs.
    - apply IH, dispatch_storable, Hs. }
  apply H. vm_compute. reflexivity.
Qed.

(** ** Negative input *)

(** C9.  Input coercion does not enforce non-negativity: text that parses to
    a negative number is stored as it is, and with the text -5 in the
    cost-of-goods-sold field of the freshly mounted component the stored
    value, the turnover ratio and the DSI are all negative. *)
Theorem negative_input_reaches_the_computation :
  (forall (value : string) (s : State),
      (parseFloat value <? of_Z 0)%num = true ->
      costOfGoodsSold (values (handleInputChange "costOfGoodsSold" value s))
        = parseFloat value)
  /\ parseFloat "-5" = of_Z (-5)
  /\ costOfGoodsSold (values negative_cogs) = of_Z (-5)
  /\ (costOfGoodsSold (values negative_cogs) <? of_Z 0)%num = true
  /\ turnoverRatio negative_cogs = (of_Z (-5) / of_Z 200000)%num
  /\ (turnoverRatio negative_cogs <? of_Z 0)%num = true
  /\ daysToSell negative_cogs = of_Z (-14600000)
  /\ (daysToSell negative_cogs <? of_Z 0)%num = true
  /\ dsiText negative_cogs = Some "-14600000"%string.
Proof.
  split.
  - intros value s Hneg.
    cbn [handleInputChange values setValues assign String.eqb Ascii.eqb
         Bool.eqb costOfGoodsSold].
    unfold or_else. destruct (parseFloat value); try reflexivity; discriminate.
  - repeat split; vm_compute; reflexivity.
Qed.

(** ** Frame conditions of the two handlers *)

Lemma field_assign_other (vs : CalculatorValues) (name other : string) (v : number) :
  other <> name -> field other (assign vs name v) = field other vs.
Proof.
  intros Hne. unfold field, assign.
  repeat match goal with
    | |- context [String.eqb name ?k] =>
        destruct (String.eqb_spec name k); [subst name|]
    end;
  repeat match goal with
    | |- context [String.eqb other ?k] =>
        destruct (String.eqb_spec other k); [subst other|]
    end;
  try reflexivity; try congruence.
Qed.

(** C10.  An input-edit event sets the named field and leaves every other
    field and the method as they were; a mode-switch event sets the method
    and leaves the four fields as they were.  This holds for the handlers
    and for the whole event, recomputation included. *)
Theorem handlers_frame (name other value tab : string) (s : State) :
  other <> name ->
  field other (values (handleInputChange name value s)) = field other (values s)
  /\ method (handleInputChange name value s) = method s
  /\ (field name (values s) <> None ->
      field name (values (handleInputChange name value s))
        = Some (parseFloat value || of_Z 0)%num)
  /\ values (handleMethodChange tab s) = values s
  /\ method (handleMethodChange tab s) = asCalculationMethod tab
  /\ field other (values (dispatch (InputChange name value) s))
     = field other (values s)
  /\ method (dispatch (InputChange name value) s) = method s
  /\ values (dispatch (MethodChange tab) s) = values s
  /\ method (dispatch (MethodChange tab) s) = asCalculationMethod tab.
Proof.
  intros Hne.
  assert (Hf : field other (values (handleInputChange name value s))
               = field other (values s))
    by (apply field_assign_other; exact Hne).
  repeat split; try reflexivity.
  - exact Hf.
  - apply stored_value.
  - exact Hf.
  - cbn [dispatch].
    destruct (method_eqb (asCalculationMethod tab) (method s)); reflexivity.
  - cbn [dispatch].
    destruct (method_eqb (asCalculationMethod tab) (method s)) eqn:Hsame;
      [|reflexivity].
    destruct (asCalculationMethod tab), (method s);
      try discriminate Hsame; reflexivity.
Qed.

Lemma handlers_frame_witness :
  "averageInventory"%string <> "costOfGoodsSold"%string
  /\ field "averageInventory"
       (values (handleInputChange "costOfGoodsSold" "42" mounted))
     = Some (of_Z 200000)
  /\ field "costOfGoodsSold"
       (values (handleInputChange "costOfGoodsSold" "42" mounted))
     = Some (of_Z 42)
  /\ method (handleMethodChange "average" mounted) = average
  /\ values (handleMethodChange "average" mounted) = values mounted.
Proof.
  assert (Hne : "averageInventory"%string <> "costOfGoodsSold"%string)
    by discriminate.
  split; [exact Hne|].
  destruct (handlers_frame "costOfGoodsSold" "averageInventory" "42" "average"
              mounted Hne) as (Hother & _ & Hnamed & Hvalues & Hmethod & _).
  split; [rewrite Hother; reflexivity|].
  split; [rewrite Hnamed; [vm_compute; reflexivity | discriminate]|].
  split; [rewrite Hmethod; reflexivity | exact Hvalues].
Defined.

(** ** Signs and NaN through the arithmetic *)

Section Signs.

Lemma iter_pos_invariant {A : Type} (P : A -> Prop) (f : A -> A) :
  (forall x, P x -> P (f x)) ->
  forall (n : positive) (x : A), P x -> P (iter_pos f n x).
Proof.
  intros Hf. induction n as [n IH | n IH |]; intros x Hx; cbn [iter_pos].
  - apply IH, IH, Hf, Hx.
  - apply IH, IH, Hx.
  - apply Hf, Hx.
Qed.

Lemma shr_1_nonneg (mrs : shr_record) :
  0 <= shr_m mrs -> 0 <= shr_m (shr_1 mrs).
Proof.
  destruct mrs as [m r s]. cbn [shr_m].
  destruct m as [| p | p]; [| destruct p | ]; cbn [shr_1 shr_m]; lia.
Qed.

Lemma shr_nonneg (mrs : shr_record) (e n : Z) :
  0 <= shr_m mrs -> 0 <= shr_m (fst (shr mrs e n)).
Proof.
  intros Hm. destruct n as [| p | p]; cbn [shr fst]; try exact Hm.
  apply (iter_pos_invariant (fun r => 0 <= shr_m r)); [apply shr_1_nonneg | exact Hm].
Qed.

Lemma shr_fexp_nonneg (m e : Z) (l : location) :
  0 <= m -> 0 <= shr_m (fst (shr_fexp prec emax m e l)).
Proof.
  intros Hm. unfold shr_fexp. apply shr_nonneg.
  destruct l as [| []]; exact Hm.
Qed.

Lemma round_nearest_even_nonneg (m : Z) (l : location) :
  0 <= m -> 0 <= round_nearest_even m l.
Proof.
  intros Hm. destruct l as [| []]; cbn [round_nearest_even];
    try destruct (Z.even m); lia.
Qed.

(** Rounding a non-negative mantissa keeps the sign it is given and never
    makes a NaN. *)
Lemma binary_round_aux_signed (sx : bool) (mx ex : Z) (lx : location) :
  0 <= mx -> signed sx (binary_round_aux prec emax sx mx ex lx).
Proof.
  intros Hm. unfold binary_round_aux.
  pose proof (shr_fexp_nonneg mx ex lx Hm) as H1.
  destruct (shr_fexp prec emax mx ex lx) as [mrs' e']. cbn [fst] in H1.
  pose proof (shr_fexp_nonneg
                (round_nearest_even (shr_m mrs') (loc_of_shr_record mrs'))
                e' loc_Exact
                (round_nearest_even_nonneg _ _ H1)) as H2.
  destruct (shr_fexp prec emax
              (round_nearest_even (shr_m mrs') (loc_of_shr_record mrs'))
              e' loc_Exact) as [mrs'' e'']. cbn [fst] in H2.
  destruct (shr_m mrs'') as [| p | p]; cbn [signed].
  - reflexivity.
  - destruct (e'' <=? emax - prec); reflexivity.
  - lia.
Qed.

Lemma binary_round_signed (sx : bool) (m : positive) (e : Z) :
  signed sx (binary_round prec emax sx m e).
Proof.
  unfold binary_round.
  destruct (shl_align m e (fexp prec emax (Z.pos (digits2_pos m) + e)))
    as [mz ez].
  apply binary_round_aux_signed. lia.
Qed.

Lemma div_finite_signed (sx : bool) (mx : positive) (ex : Z)
  (sy : bool) (my : positive) (ey : Z) :
  signed (xorb sx sy) (S754_finite sx mx ex / S754_finite sy my ey)%num.
Proof.
  unfold div, SFdiv, SFdiv_core_binary.
  set (e' := Z.min _ _). set (m' := match _ with Z0 => _ | _ => _ end).
  assert (Hm' : 0 <= m').
  { unfold m'. destruct (ex - ey - e') as [| p | p]; try lia.
    apply Z.shiftl_nonneg. lia. }
  pose proof (Z.div_pos m' (Zpos my) Hm' ltac:(lia)) as Hq.
  unfold Z.div in Hq.
  destruct (Z.div_eucl m' (Z.pos my)) as [q r]. cbn [fst] in Hq.
  apply binary_round_aux_signed. exact Hq.
Qed.

Lemma signed_not_nan (s : bool) (a : number) : signed s a -> is_nan a = false.
Proof. destruct a; cbn [signed is_nan]; intros H; try reflexivity; contradiction. Qed.

Lemma signed_non_negative (a : number) : signed false a -> non_negative a = true.
Proof.
  destruct a as [s | s | | s m e]; cbn [signed non_negative];
    intros H; try contradiction; rewrite H; reflexivity.
Qed.

(** The sum of two finite numbers is never NaN. *)
Lemma add_finite_not_nan (sx : bool) (mx : positive) (ex : Z)
  (sy : bool) (my : positive) (ey : Z) :
  is_nan (S754_finite sx mx ex + S754_finite sy my ey)%num = false.
Proof.
  unfold add, SFadd.
  destruct (cond_Zopp sx (Z.pos (fst (shl_align mx ex (Z.min ex ey))))
            + cond_Zopp sy (Z.pos (fst (shl_align my ey (Z.min ex ey)))))
    as [| p | p]; cbn [binary_normalize].
  - reflexivity.
  - apply (signed_not_nan false), binary_round_signed.
  - apply (signed_not_nan true), binary_round_signed.
Qed.

(** The sum of two positive finite numbers is not negative. *)
Lemma add_finite_non_negative (mx : positive) (ex : Z) (my : positive) (ey : Z) :
  non_negative (S754_finite false mx ex + S754_finite false my ey)%num = true.
Proof.
  unfold add, SFadd. cbn [cond_Zopp].
  destruct (shl_align mx ex (Z.min ex ey)) as [mx' ex'].
  destruct (shl_align my ey (Z.min ex ey)) as [my' ey']. cbn [fst].
  change (Z.pos mx' + Z.pos my') with (Z.pos (mx' + my')).
  cbn [binary_normalize].
  apply signed_non_negative, binary_round_signed.
Qed.

(** When a quotient is NaN. *)
Lemma div_is_nan (a b : number) :
  is_nan (a / b)%num
  = is_nan a || is_nan b || (is_zero a && is_zero b)
    || (is_infinite a && is_infinite b).
Proof.
  destruct a as [sa | sa | | sa ma ea]; destruct b as [sb | sb | | sb mb eb];
    try reflexivity.
  rewrite (signed_not_nan _ _ (div_finite_signed sa ma ea sb mb eb)).
  reflexivity.
Qed.

(** When a sum is NaN. *)
Lemma add_is_nan (a b : number) :
  is_nan (a + b)%num = is_nan a || is_nan b || opposite_infinities a b.
Proof.
  destruct a as [sa | sa | | sa ma ea]; destruct b as [sb | sb | | sb mb eb];
    try (destruct sa, sb; reflexivity); try reflexivity.
  apply add_finite_not_nan.
Qed.

Lemma add_non_negative (a b : number) :
  non_negative a = true -> non_negative b = true ->
  non_negative (a + b)%num = true.
Proof.
  destruct a as [[] | [] | | [] ma ea]; try discriminate;
    destruct b as [[] | [] | | [] mb eb]; try discriminate;
    intros _ _; try reflexivity.
  apply add_finite_non_negative.
Qed.

(** A quotient of two non-negative numbers is non-negative or NaN. *)
Lemma div_non_negative (a b : number) :
  non_negative a = true -> non_negative b = true ->
  non_negative (a / b)%num = true \/ (a / b)%num = NaN.
Proof.
  destruct a as [[] | [] | | [] ma ea]; try discriminate;
    destruct b as [[] | [] | | [] mb eb]; try discriminate;
    intros _ _; try (left; reflexivity); try (right; reflexivity).
  left. apply signed_non_negative.
  exact (div_finite_signed false ma ea false mb eb).
Qed.

Lemma non_negative_not_lt_zero (a : number) :
  non_negative a = true \/ a = NaN -> (a <? of_Z 0)%num = false.
Proof.
  intros [H | ->]; [|reflexivity].
  destruct a as [[] | [] | | [] m e]; try discriminate; reflexivity.
Qed.

Lemma storable_non_negative (a : number) :
  storable a = true -> (a <? of_Z 0)%num = false -> non_negative a = true.
Proof.
  destruct a as [[] | [] | | [] m e]; try discriminate; try reflexivity;
    intros _ H; vm_compute in H; discriminate.
Qed.

End Signs.

(** ** When the panel shows NaN, negative figures or an infinite DSI *)

(** The ratio is NaN exactly when the cost of goods sold or the effective
    average inventory is NaN, or both are zero, or both are infinite; the DSI
    is NaN exactly when the ratio is; in COGS mode the effective average
    inventory is NaN exactly when a summand is NaN or the two are opposite
    infinities.  With stored fields, which are never NaN, direct-average
    mode therefore shows NaN exactly for 0 / 0 and Infinity / Infinity. *)
Theorem NaN_results_characterised
  (mode : CalculationMethod) (inputs : CalculatorValues) (prev : State) :
  is_nan (turnoverRatio (compute mode inputs prev))
    = is_nan (costOfGoodsSold inputs)
      || is_nan (effectiveAverageInventory mode inputs)
      || (is_zero (costOfGoodsSold inputs)
          && is_zero (effectiveAverageInventory mode inputs))
      || (is_infinite (costOfGoodsSold inputs)
          && is_infinite (effectiveAverageInventory mode inputs))
  /\ is_nan (daysToSell (compute mode inputs prev))
     = is_nan (turnoverRatio (compute mode inputs prev))
  /\ is_nan (effectiveAverageInventory COGS_AVERAGE inputs)
     = is_nan (beginningInventory inputs) || is_nan (endingInventory inputs)
       || opposite_infinities (beginningInventory inputs) (endingInventory inputs)
  /\ (all_storable inputs = true ->
      is_nan (turnoverRatio (compute DIRECT_AVERAGE inputs prev))
      = (is_zero (costOfGoodsSold inputs) && is_zero (averageInventory inputs))
        || (is_infinite (costOfGoodsSold inputs)
            && is_infinite (averageInventory inputs))).
Proof.
  assert (Hr : forall m, turnoverRatio (compute m inputs prev)
               = (costOfGoodsSold inputs / effectiveAverageInventory m inputs)%num)
    by (intros m; destruct m; reflexivity).
  assert (Hd : daysToSell (compute mode inputs prev)
               = (of_Z 365 / turnoverRatio (compute mode inputs prev))%num)
    by (destruct mode; reflexivity).
  split; [rewrite Hr; apply div_is_nan|].
  split.
  { rewrite Hd, div_is_nan.
    destruct decimal_integers as (H365 & _). rewrite H365.
    cbn [is_nan is_zero is_infinite andb orb].
    rewrite !orb_false_r. reflexivity. }
  split.
  { change (effectiveAverageInventory COGS_AVERAGE inputs)
      with ((beginningInventory inputs + endingInventory inputs) / of_Z 2)%num.
    rewrite div_is_nan, add_is_nan. rewrite two_eq.
    cbn [is_nan is_zero is_infinite].
    rewrite !andb_false_r, !orb_false_r. reflexivity. }
  intros Hs. rewrite Hr, div_is_nan.
  change (effectiveAverageInventory DIRECT_AVERAGE inputs)
    with (averageInventory inputs).
  unfold all_storable in Hs.
  apply andb_true_iff in Hs. destruct Hs as [Hs Ha].
  apply andb_true_iff in Hs. destruct Hs as [Hs _].
  apply andb_true_iff in Hs. destruct Hs as [Hc _].
  destruct (costOfGoodsSold inputs) as [[] | [] | | [] mc ec];
    try discriminate Hc;
    destruct (averageInventory inputs) as [[] | [] | | [] ma ea];
    try discriminate Ha; reflexivity.
Qed.

(** Ratio and DSI of non-negative operands. *)
Lemma compute_non_negative (c x : number) :
  non_negative c = true -> non_negative x = true ->
  ((c / x) <? of_Z 0)%num = false
  /\ ((of_Z 365 / (c / x)) <? of_Z 0)%num = false.
Proof.
  intros Hc Hx.
  destruct (div_non_negative c x Hc Hx) as [Hr | Hr].
  - split; [apply non_negative_not_lt_zero; left; exact Hr|].
    apply non_negative_not_lt_zero.
    apply (div_non_negative (of_Z 365) _ eq_refl Hr).
  - rewrite Hr. split; reflexivity.
Qed.

(** Negative figures come from negative input only: when the cost of goods
    sold and the inventory fields that the active mode reads are stored
    values (neither NaN nor -0) that are not negative, neither the ratio nor
    the DSI is negative. *)
Theorem non_negative_inputs_give_non_negative_results
  (mode : CalculationMethod) (inputs : CalculatorValues) (prev : State) :
  all_storable inputs = true ->
  (costOfGoodsSold inputs <? of_Z 0)%num = false ->
  match mode with
  | cogs => (beginningInventory inputs <? of_Z 0)%num = false
            /\ (endingInventory inputs <? of_Z 0)%num = false
  | average => (averageInventory inputs <? of_Z 0)%num = false
  end ->
  (turnoverRatio (compute mode inputs prev) <? of_Z 0)%num = false
  /\ (daysToSell (compute mode inputs prev) <? of_Z 0)%num = false.
Proof.
  intros Hs Hc Hm. unfold all_storable in Hs.
  apply andb_true_iff in Hs. destruct Hs as [Hs Ha].
  apply andb_true_iff in Hs. destruct Hs as [Hs He].
  apply andb_true_iff in Hs. destruct Hs as [Hsc Hb].
  pose proof (storable_non_negative _ Hsc Hc) as Hc'.
  destruct mode.
  - destruct Hm as [Hb0 He0].
    pose proof (add_non_negative _ _ (storable_non_negative _ Hb Hb0)
                  (storable_non_negative _ He He0)) as Hsum.
    destruct (div_non_negative _ (of_Z 2) Hsum eq_refl) as [Hx | Hx].
    + exact (compute_non_negative _ _ Hc' Hx).
    + change ((costOfGoodsSold inputs
               / ((beginningInventory inputs + endingInventory inputs) / of_Z 2)
               <? of_Z 0)%num = false
              /\ (of_Z 365
                  / (costOfGoodsSold inputs
                     / ((beginningInventory inputs + endingInventory inputs)
                        / of_Z 2)) <? of_Z 0)%num = false).
      rewrite Hx. destruct (costOfGoodsSold inputs); split; reflexivity.
  - exact (compute_non_negative _ _ Hc'
             (storable_non_negative _ Ha Hm)).
Qed.

Lemma non_negative_inputs_give_non_negative_results_witness :
  all_storable (values initialState) = true
  /\ (turnoverRatio mounted <? of_Z 0)%num = false
  /\ (daysToSell mounted <? of_Z 0)%num = false.
Proof.
  split; [reflexivity|].
  exact (non_negative_inputs_give_non_negative_results cogs
           (values initialState) initialState eq_refl eq_refl
           (conj eq_refl eq_refl)).
Defined.

(** A zero cost of goods sold, which is also what a blank field is stored
    as, is not guarded either: over a non-zero finite effective average
    inventory the ratio is a zero, printed 0.00, and the DSI is an infinity,
    printed Infinity or -Infinity. *)
Theorem zero_cost_gives_infinite_dsi
  (mode : CalculationMethod) (inputs : CalculatorValues) (prev : State) :
  is_zero (costOfGoodsSold inputs) = true ->
  is_finite (effectiveAverageInventory mode inputs) = true ->
  is_zero (effectiveAverageInventory mode inputs) = false ->
  is_zero (turnoverRatio (compute mode inputs prev)) = true
  /\ is_infinite (daysToSell (compute mode inputs prev)) = true
  /\ ratioText (compute mode inputs prev) = Some "0.00"%string
  /\ (dsiText (compute mode inputs prev) = Some "Infinity"%string
      \/ dsiText (compute mode inputs prev) = Some "-Infinity"%string)
  /\ (non_negative (costOfGoodsSold inputs) = true ->
      non_negative (effectiveAverageInventory mode inputs) = true ->
      daysToSell (compute mode inputs prev) = Infinity
      /\ ratioMessage (turnoverRatio (compute mode inputs prev))
         = "Low turnover - consider reducing inventory levels"%string
      /\ dsiMessage (daysToSell (compute mode inputs prev))
         = "Your inventory takes a long time to sell"%string).
Proof.
  intros Hc Hf Hz.
  assert (Hr : turnoverRatio (compute mode inputs prev)
               = (costOfGoodsSold inputs / effectiveAverageInventory mode inputs)%num)
    by (destruct mode; reflexivity).
  assert (Hd : daysToSell (compute mode inputs prev)
               = (of_Z 365 / turnoverRatio (compute mode inputs prev))%num)
    by (destruct mode; reflexivity).
  unfold ratioText, dsiText. rewrite Hd, Hr.
  destruct (costOfGoodsSold inputs) as [sc | | |]; try discriminate Hc.
  destruct (effectiveAverageInventory mode inputs) as [| | | sx mx ex];
    try discriminate Hf; try discriminate Hz.
  destruct sc, sx; repeat split; try (vm_compute; reflexivity);
    try (left; vm_compute; reflexivity); try (right; vm_compute; reflexivity);
    intros; discriminate.
Qed.

Lemma zero_cost_gives_infinite_dsi_witness :
  costOfGoodsSold (values (dispatch (InputChange "costOfGoodsSold" "") mounted))
    = of_Z 0
  /\ daysToSell (dispatch (InputChange "costOfGoodsSold" "") mounted) = Infinity
  /\ dsiText (dispatch (InputChange "costOfGoodsSold" "") mounted)
     = Some "Infinity"%string.
Proof.
  split; [vm_compute; reflexivity|].
  destruct (zero_cost_gives_infinite_dsi cogs
              (values (dispatch (InputChange "costOfGoodsSold" "") mounted))
              mounted eq_refl eq_refl eq_refl)
    as (_ & _ & _ & _ & H).
  destruct (H eq_refl eq_refl) as (Hd & _).
  split.
  - exact Hd.
  - change (dsiText (dispatch (InputChange "costOfGoodsSold" "") mounted))
      with (toFixed 0 (daysToSell (compute cogs
              (values (dispatch (InputChange "costOfGoodsSold" "") mounted))
              mounted))).
    rewrite Hd. reflexivity.
Defined.

(** ** Sessions *)

Lemma compute_ignores_prev
  (m : CalculationMethod) (v : CalculatorValues) (p q : State) :
  compute m v p = compute m v q.
Proof. reflexivity. Qed.

Lemma compute_of_state (s : State) :
  calculateResults s = compute (method s) (values s) s.
Proof. destruct s. reflexivity. Qed.

Lemma dispatch_input_compute
  (name value : string) (m : CalculationMethod) (v : CalculatorValues)
  (p : State) :
  dispatch (InputChange name value) (compute m v p)
  = compute m (assign v name (parseFloat value || of_Z 0)%num) p.
Proof. reflexivity. Qed.

Lemma dispatch_method_compute
  (tab : string) (m : CalculationMethod) (v : CalculatorValues) (p : State) :
  dispatch (MethodChange tab) (compute m v p)
  = compute (asCalculationMethod tab) v p.
Proof.
  cbn [dispatch]. unfold handleMethodChange.
  change (method (compute m v p)) with m.
  destruct (asCalculationMethod tab), m; reflexivity.
Qed.

Lemma run_snoc (es : list Event) (e : Event) :
  run (es ++ [e]) = dispatch e (run es).
Proof. unfold run. rewrite fold_left_app. reflexivity. Qed.

Lemma last_edit_snoc_input (name n value : string) (es : list Event) :
  last_edit name (es ++ [InputChange n value])
  = if (n =? name)%string then Some value else last_edit name es.
Proof. unfold last_edit. rewrite fold_left_app. reflexivity. Qed.

Lemma last_edit_snoc_method (name tab : string) (es : list Event) :
  last_edit name (es ++ [MethodChange tab]) = last_edit name es.
Proof. unfold last_edit. rewrite fold_left_app. reflexivity. Qed.

Lemma final_values_snoc_input (n value : string) (es : list Event) :
  final_values (es ++ [InputChange n value])
  = assign (final_values es) n (parseFloat value || of_Z 0)%num.
Proof.
  unfold final_values, assign. rewrite !last_edit_snoc_input.
  repeat match goal with
    | |- context [String.eqb n ?k] =>
        destruct (String.eqb_spec n k); [subst n; reflexivity|]
    end.
  reflexivity.
Qed.

Lemma final_values_snoc_method (tab : string) (es : list Event) :
  final_values (es ++ [MethodChange tab]) = final_values es.
Proof. unfold final_values. rewrite !last_edit_snoc_method. reflexivity. Qed.

Lemma final_method_snoc_input (n value : string) (es : list Event) :
  final_method (es ++ [InputChange n value]) = final_method es.
Proof. unfold final_method, last_tab. rewrite fold_left_app. reflexivity. Qed.

Lemma final_method_snoc_method (tab : string) (es : list Event) :
  final_method (es ++ [MethodChange tab]) = asCalculationMethod tab.
Proof. unfold final_method, last_tab. rewrite fold_left_app. reflexivity. Qed.

(** Whatever the events and their order, the component ends in the state
    that [calculateResults] derives from the last tab selected and, field by
    field, the last text typed (the initial method and values where there
    was none): earlier edits and earlier results leave no trace. *)
Theorem session_is_its_last_inputs (es : list Event) :
  run es = compute (final_method es) (final_values es) initialState.
Proof.
  induction es as [| e es IH] using rev_ind.
  - reflexivity.
  - rewrite run_snoc, IH. destruct e as [n value | tab].
    + rewrite dispatch_input_compute, final_values_snoc_input,
        final_method_snoc_input. reflexivity.
    + rewrite dispatch_method_compute, final_values_snoc_method,
        final_method_snoc_method. reflexivity.
Qed.

Lemma fold_dispatch_in_sync (es : list Event) (s : State) :
  calculateResults s = s ->
  calculateResults (fold_left (fun s e => dispatch e s) es s)
  = fold_left (fun s e => dispatch e s) es s.
Proof.
  revert s. induction es as [| e es IH]; intros s Hs; cbn [fold_left].
  - exact Hs.
  - apply IH, dispatch_in_sync, Hs.
Qed.

Lemma reachable_in_sync (es : list Event) : calculateResults (run es) = run es.
Proof. apply fold_dispatch_in_sync, calculateResults_idempotent. Qed.

Lemma asCalculationMethod_tab_of (m : CalculationMethod) :
  asCalculationMethod (tab_of m) = m.
Proof. destruct m; reflexivity. Qed.

(** Selecting another tab and then the original one again brings back
    exactly the state there was: the fields of the hidden tab were kept and
    the figures are recomputed to what they were. *)
Theorem tab_round_trip (es : list Event) (tab : string) :
  dispatch (MethodChange (tab_of (method (run es))))
    (dispatch (MethodChange tab) (run es))
  = run es.
Proof.
  pose proof (reachable_in_sync es) as Hsync.
  rewrite compute_of_state in Hsync.
  remember (run es) as s eqn:Hs. clear Hs.
  assert (H1 : dispatch (MethodChange tab) s
               = compute (asCalculationMethod tab) (values s) s).
  { rewrite <- Hsync at 1. apply dispatch_method_compute. }
  rewrite H1, dispatch_method_compute, asCalculationMethod_tab_of.
  exact Hsync.
Qed.

(** An edit of a field that the active mode does not read changes none of
    the four derived cells: the average inventory in COGS mode, the
    beginning and ending inventory in direct-average mode, and any name that
    is not a field at all. *)
Theorem hidden_fields_do_not_show (es : list Event) (name value : string) :
  match method (run es) with
  | cogs => name = "averageInventory"%string
  | average =>
      name = "beginningInventory"%string \/ name = "endingInventory"%string
  end
  \/ field name (values (run es)) = None ->
  shown (dispatch (InputChange name value) (run es)) = shown (run es).
Proof.
  pose proof (reachable_in_sync es) as Hsync.
  set (s := run es) in *. intros Hname.
  rewrite <- Hsync at 2. clear Hsync.
  destruct s as [m v r d b c]. cbn [method values] in Hname.
  destruct Hname as [Hname | Hname].
  - destruct m; [subst name | destruct Hname; subst name]; reflexivity.
  - unfold field in Hname. unfold dispatch, handleInputChange, assign.
    cbn [values].
    repeat match goal with
      | H : context [String.eqb name ?k] |- _ =>
          destruct (String.eqb name k); [discriminate H|]
      end.
    reflexivity.
Qed.

Lemma hidden_fields_do_not_show_witness :
  method (run []) = cogs
  /\ shown (dispatch (InputChange "averageInventory" "7") (run []))
     = shown (run [])
  /\ values (dispatch (InputChange "averageInventory" "7") (run []))
     <> values (run []).
Proof.
  split; [reflexivity|]. split.
  - apply (hidden_fields_do_not_show [] "averageInventory" "7").
    left. reflexivity.
  - vm_compute. discriminate.
Defined.

(** ** The PDF export *)


(** One step of a run in an arbitrary world: a toast or console call
    returns, any other call either returns or throws. *)
Ltac export_step Hquiet :=
  match goal with
  | |- context [?w ?n unit (toast ?v ?t ?d)] =>
      rewrite (proj1 Hquiet n v t d)
  | |- context [?w ?n unit (consoleError ?m ?e)] =>
      rewrite (proj2 Hquiet n m e)
  | H : ?w ?n ?T ?c = _ |- context [?w ?n ?T ?c] => rewrite H
  | |- context [match ?w ?n ?T ?c with Returns _ => _ | Throws _ => _ end] =>
      destruct (w n T c) eqn:?
  end;
  cbn -[of_Z Number.div mul String.append].

Ltac export_cases Hquiet :=
  match goal with
  | |- context [run_export ?m ?w] =>
      let r := fresh "r" in
      let Hr := fresh "Hr" in
      remember (run_export m w) as r eqn:Hr; revert Hr
  end;
  unfold run_export, generatePDF, try_catch, bind, call;
  cbn -[of_Z Number.div mul String.append];
  repeat export_step Hquiet;
  intros ->;
  cbn -[of_Z Number.div mul String.append];
  repeat match goal with
    | H : ?w ?n ?T ?c = _ |- context [?w ?n ?T ?c] => rewrite H
    end.

(** Without the results panel the export does nothing at all.  With it, and
    a toast and a console that do not throw, the export never throws
    whatever its collaborators do: it opens with the preparing notice and
    closes with exactly one further notice, success or failure, which is the
    last thing it does. *)
Theorem export_ends_with_one_notice (world : World) :
  quiet world ->
  run_export (generatePDF None) world = ([], Returns tt)
  /\ snd (run_export (generatePDF (Some resultsPanel)) world) = Returns tt
  /\ hd_error (fst (run_export (generatePDF (Some resultsPanel)) world))
     = Some (entry (toast None "Preparing your PDF..."
                      "Please wait while we generate your report.") true)
  /\ count is_toast (fst (run_export (generatePDF (Some resultsPanel)) world))
     = 2%nat
  /\ (count is_success_toast
        (fst (run_export (generatePDF (Some resultsPanel)) world))
      + count is_failure_toast
          (fst (run_export (generatePDF (Some resultsPanel)) world)))%nat
     = 1%nat
  /\ match rev (fst (run_export (generatePDF (Some resultsPanel)) world)) with
     | e :: _ => is_success_toast e || is_failure_toast e
     | [] => false
     end = true.
Proof.
  intros Hquiet. split; [reflexivity|].
  export_cases Hquiet; repeat split; reflexivity.
Qed.

Lemma export_ends_with_one_notice_witness :
  count is_toast
    (fst (run_export (generatePDF (Some resultsPanel))
            (failing_at 2 "tainted canvas"%string
               {| width := of_Z 1600; height := of_Z 1200 |} ""%string ""%string)))
  = 2%nat.
Proof.
  assert (Hq : quiet (failing_at 2 "tainted canvas"%string
                        {| width := of_Z 1600; height := of_Z 1200 |} ""%string ""%string))
    by (split; intros n; intros; unfold failing_at;
        destruct (n =? 2)%nat; reflexivity).
  exact (proj1 (proj2 (proj2 (proj2
           (export_ends_with_one_notice _ Hq))))).
Defined.




(** The success toast throws after the file was saved: the file stays saved
    and the failure is reported. *)
Example saved_and_reported_as_failed :
  count is_saved
    (fst (run_export (generatePDF (Some resultsPanel))
            (fun n T c =>
               if (n =? 24)%nat then Throws "toast failed"%string
               else calm {| width := of_Z 1600; height := of_Z 1200 |}
                      ""%string ""%string n T c)))
  = 1%nat
  /\ count is_failure_toast
       (fst (run_export (generatePDF (Some resultsPanel))
               (fun n T c =>
                  if (n =? 24)%nat then Throws "toast failed"%string
                  else calm {| width := of_Z 1600; height := of_Z 1200 |}
                         ""%string ""%string n T c)))
     = 1%nat.
Proof. split; vm_compute; reflexivity. Qed.






(** [sendEmail] only shows its notice. *)
Example sendEmail_notice (world : World) :
  quiet world ->
  run_export sendEmail world
  = ([entry (toast None "Email Feature"
               "This would integrate with your email service to send the report. For now, please use the download option.")
        true],
     Returns tt).
Proof.
  intros Hquiet. unfold run_export, sendEmail, call. cbn [List.length].
  rewrite (proj1 Hquiet). reflexivity.
Qed.
